(** * Jaffle shop API v1 routers (app/routers.py)

    A shallow embedding of the routers: the query executor
    ([_get_list_response], [_get_single_response]), the pagination engine
    ([_get_paged_response]), order enrichment ([_enrich_orders]), the
    row-count summary ([row_counts]) and the twelve resource handlers.

    The database engine is an external collaborator: it takes SQL text and
    answers with a cursor or raises.  It is a function [DB]; every theorem
    that needs to know what the engine answers says so in a hypothesis about
    the exact statement text the routers build. *)

From Stdlib Require Import ZArith List String Ascii Bool Lia PeanoNat.
From Stdlib Require Import DecimalString.
Import ListNotations.

Local Open Scope string_scope.
Local Open Scope Z_scope.

(** ** Python values and exceptions *)

(** The exceptions the routers can let escape.  [NotFound] stands for an
    HTTP 404 (fastapi.HTTPException with status 404); [QueryError] for
    whatever the engine raises. *)
Inductive Exception : Type :=
  | TypeError
  | IndexError
  | KeyError (key : string)
  | AttributeError
  | QueryError (message : string)
  | NotFound.

Inductive result (A : Type) : Type :=
  | Ok (value : A)
  | Err (e : Exception).

Arguments Ok {A} value.
Arguments Err {A} e.

(** Values the engine hands back in a row.  [SOpaque] carries a value of a
    type that has no order against [int] (datetime, date, UUID) by its
    [str()] text. *)
Inductive Scalar : Type :=
  | SNone
  | SBool (b : bool)
  | SInt (n : Z)
  | SStr (s : string)
  | SOpaque (text : string).

(** The double-quote character, as a one-character string. *)
Definition dquote : string := String (ascii_of_nat 34) EmptyString.

(** [str(n)] for a Python int. *)
Definition str_int (n : Z) : string := NilZero.string_of_int (Z.to_int n).

(** [str(v)], as an f-string or [urlencode] applies it. *)
Definition py_str (v : Scalar) : string :=
  match v with
  | SNone => "None"
  | SBool true => "True"
  | SBool false => "False"
  | SInt n => str_int n
  | SStr s => s
  | SOpaque text => text
  end.

(** [a < v] for an int [a]: bools are ints, anything else raises. *)
Definition py_lt_int (a : Z) (v : Scalar) : result bool :=
  match v with
  | SInt c => Ok (a <? c)
  | SBool b => Ok (a <? (if b then 1 else 0))
  | _ => Err TypeError
  end.

Definition scalar_eqb (a b : Scalar) : bool :=
  match a, b with
  | SNone, SNone => true
  | SBool x, SBool y => Bool.eqb x y
  | SInt x, SInt y => Z.eqb x y
  | SStr x, SStr y => String.eqb x y
  | SOpaque x, SOpaque y => String.eqb x y
  | _, _ => false
  end.

(** ** Python dicts: insertion-ordered, one entry per key *)

Section Dict.
Context {V : Type}.

Definition dict : Type := list (string * V).

Fixpoint dict_get (k : string) (d : dict) : option V :=
  match d with
  | [] => None
  | (k', v) :: rest => if String.eqb k' k then Some v else dict_get k rest
  end.

(** [d[k] = v]: an existing key keeps its place, a new one goes last. *)
Fixpoint dict_set (k : string) (v : V) (d : dict) : dict :=
  match d with
  | [] => [(k, v)]
  | (k', v') :: rest =>
      if String.eqb k' k then (k', v) :: rest
      else (k', v') :: dict_set k v rest
  end.

(** [dict(pairs)] and [{k: v for k, v in pairs}]. *)
Definition dict_of_items (items : list (string * V)) : dict :=
  fold_left (fun d kv => dict_set (fst kv) (snd kv) d) items [].

Definition keys (d : dict) : list string := map fst d.
End Dict.

Arguments dict V : clear implicits.

(** ** urllib.parse.urlencode *)

Definition is_always_safe (c : ascii) : bool :=
  let n := nat_of_ascii c in
  ((48 <=? n) && (n <=? 57))%nat || ((65 <=? n) && (n <=? 90))%nat
  || ((97 <=? n) && (n <=? 122))%nat
  || Ascii.eqb c "_" || Ascii.eqb c "." || Ascii.eqb c "-" || Ascii.eqb c "~".

Definition hex_digit (n : nat) : ascii :=
  nth n (list_ascii_of_string "0123456789ABCDEF") "0"%char.

(** [quote_plus] on one byte of the UTF-8 text. *)
Definition quote_plus_byte (c : ascii) : string :=
  if is_always_safe c then String c EmptyString
  else if Ascii.eqb c " " then "+"
  else let n := nat_of_ascii c in
       String "%" (String (hex_digit (n / 16)) (String (hex_digit (n mod 16)) EmptyString)).

Fixpoint quote_plus (s : string) : string :=
  match s with
  | EmptyString => EmptyString
  | String c rest => quote_plus_byte c ++ quote_plus rest
  end.

(** [sep.join(parts)]. *)
Fixpoint join (sep : string) (parts : list string) : string :=
  match parts with
  | [] => ""
  | [p] => p
  | p :: rest => p ++ sep ++ join sep rest
  end.

Definition urlencode (query : dict Scalar) : string :=
  join "&" (map (fun kv => quote_plus (fst kv) ++ "=" ++ quote_plus (py_str (snd kv))) query).

(** [s[n:]]. *)
Fixpoint string_drop (n : nat) (s : string) : string :=
  match n, s with
  | O, _ => s
  | S n', String _ rest => string_drop n' rest
  | S _, EmptyString => EmptyString
  end.

(** ** The engine, the request and the response *)

(** What [db.sql(query)] hands back: the column names
    ([desc[0] for desc in cursor.description]) and the rows. *)
Record Cursor : Type := { description : list string; rows : list (list Scalar) }.

(** The connection: SQL text in, a cursor or an exception out.  [db.sql] and
    [db.query] are the same call. *)
Definition DB : Type := string -> result Cursor.

Definition fetchall (cursor : Cursor) : list (list Scalar) := rows cursor.

(** [cursor.fetchone()]: the first row, or [None] when there is none. *)
Definition fetchone (cursor : Cursor) : option (list Scalar) := hd_error (rows cursor).

(** [row[0]] where [row] may be [None]. *)
Definition subscript0 (row : option (list Scalar)) : result Scalar :=
  match row with
  | None => Err TypeError
  | Some [] => Err IndexError
  | Some (v :: _) => Ok v
  end.

(** [zip(column_names, row)] where [row] may be [None]. *)
Definition zip_row (column_names : list string) (row : option (list Scalar))
  : result (list (string * Scalar)) :=
  match row with
  | None => Err TypeError
  | Some r => Ok (combine column_names r)
  end.

(** Starlette's [request.query_params], as its decoded (name, value) pairs in
    the order of the query string. *)
Record Request : Type := { query_params : list (string * string) }.

(** The response object FastAPI injects; only its headers matter here.  The
    list is Starlette's raw header list: each name is held in lower case. *)
Record Response : Type := { headers : list (string * string) }.

(** [name.lower()] for a header name (header names are ASCII). *)
Definition lower_byte (c : ascii) : ascii :=
  let n := nat_of_ascii c in
  if ((65 <=? n) && (n <=? 90))%nat then ascii_of_nat (n + 32) else c.

Fixpoint lower (s : string) : string :=
  match s with
  | EmptyString => EmptyString
  | String c rest => String (lower_byte c) (lower rest)
  end.

Fixpoint remove_header (k : string) (l : list (string * string)) : list (string * string) :=
  match l with
  | [] => []
  | (k', v') :: rest =>
      if String.eqb k' k then remove_header k rest else (k', v') :: remove_header k rest
  end.

(** The raw list with the entry of raw name [k] set: the first entry of that
    name is replaced and later ones dropped, a new name is appended. *)
Fixpoint replace_header (k v : string) (l : list (string * string))
  : list (string * string) :=
  match l with
  | [] => [(k, v)]
  | (k', v') :: rest =>
      if String.eqb k' k then (k, v) :: remove_header k rest
      else (k', v') :: replace_header k v rest
  end.

(** [response.headers[k] = v]: the name is put in lower case and the raw
    entry of that name is set. *)
Definition set_header (k v : string) (l : list (string * string)) : list (string * string) :=
  replace_header (lower k) v l.

(** [response.headers.get(k)]: the lookup is by the name in lower case, so
    it finds the header however [k] is spelled. *)
Definition get_header (k : string) (response : Response) : option string :=
  dict_get (lower k) (headers response).

(** [dict(request.query_params)]: one entry per name, placed where the name
    first occurs and holding the value it has last. *)
Definition query_params_dict (request : option Request) : result (dict Scalar) :=
  match request with
  | None => Err AttributeError
  | Some r => Ok (dict_of_items (map (fun kv => (fst kv, SStr (snd kv))) (query_params r)))
  end.

(** ** Effects: the statements sent to the engine, and exceptions *)

(** A computation threads the list of statements issued so far and either
    returns or raises. *)
Definition IO (A : Type) : Type := list string -> list string * result A.

Definition ret {A : Type} (a : A) : IO A := fun log => (log, Ok a).

Definition bind {A B : Type} (m : IO A) (f : A -> IO B) : IO B :=
  fun log =>
    match m log with
    | (log', Ok a) => f a log'
    | (log', Err e) => (log', Err e)
    end.

Definition lift {A : Type} (r : result A) : IO A := fun log => (log, r).

(** [db.sql(query)]: the statement is sent, the engine answers. *)
Definition sql (db : DB) (query : string) : IO Cursor :=
  fun log => ((log ++ [query])%list, db query).

Notation "x <- m ;; k" := (bind m (fun x => k))
  (at level 61, m at next level, right associativity).
Notation "' pat <- m ;; k" := (bind m (fun x => match x with pat => k end))
  (at level 61, pat pattern, m at next level, right associativity).

(** A keyword argument with a default: [arg given default]. *)
Definition arg {A : Type} (given : option A) (default : A) : A :=
  match given with
  | Some a => a
  | None => default
  end.

(** ** Records *)

(** A row as a mapping from column name to value. *)
Definition Row : Type := dict Scalar.

(** A field of an order after enrichment: a column value or the item list. *)
Inductive Value : Type :=
  | Scal (s : Scalar)
  | ItemList (items : list Row).

Definition Order : Type := dict Value.

(** The order row seen as a record that can also hold an item list (in
    Python it is one and the same dict, updated in place). *)
Definition as_order (row : Row) : Order := map (fun kv => (fst kv, Scal (snd kv))) row.

(** [order['id']]. *)
Definition getitem (row : Row) (k : string) : result Scalar :=
  match dict_get k row with
  | Some v => Ok v
  | None => Err (KeyError k)
  end.

(** ** The statements, in the words of the specification *)

(** What the pagination engine, order enrichment and the row-count summary
    are to ask the engine, written from the specification's templates and not
    from the routers; the theorems compare what the routers send with
    these. *)
Module Sql.

(** The words of a statement, a single space between each two. *)
Definition words (ws : list string) : string := String.concat " " ws.

(** COUNT star over the table with the WHERE-clause fragment. *)
Definition count (table filter : string) : string :=
  words ["SELECT COUNT(*) FROM"; table; filter].

(** SELECT * FROM table where order_by LIMIT page_size OFFSET offset. *)
Definition page (table filter order_by : string) (page_size offset : Z) : string :=
  words ["SELECT * FROM"; table; filter; order_by;
         "LIMIT"; str_int page_size; "OFFSET"; str_int offset].

(** All items whose order_id matches the id, given as text between single
    quotes. *)
Definition items_of (order_id : string) : string :=
  words ["SELECT * FROM items WHERE order_id ="; "'" ++ order_id ++ "'"].

(** SELECT name, COUNT star for one table. *)
Definition named_count (table : string) : string :=
  "SELECT '" ++ table ++ "' as table_name, COUNT(*) as row_count FROM " ++ table.

(** The per-table statements unioned into one. *)
Definition union_all (parts : list string) : string := String.concat " UNION ALL " parts.

End Sql.

(** ** The routers *)

Section Routers.

(** The two constants of app/const.py, as parameters. *)
Variable API_V1_PREFIX : string.
Variable DEFAULT_PAGE_SIZE : Z.

(** Get a list response from a collection endpoint. *)
Definition _get_list_response (db : DB) (query : string) : IO (list Row) :=
  cursor <- sql db query ;;
  let column_names := description cursor in
  ret (map (fun row => dict_of_items (combine column_names row)) (fetchall cursor)).

(** The two statements of the pagination engine. *)
Definition count_statement (table_name where_clause : string) : string :=
  "SELECT COUNT(*) FROM " ++ table_name ++ " " ++ where_clause.

Definition page_statement (table_name where_clause sort_by : string) (page_size offset : Z)
  : string :=
  "SELECT * FROM " ++ table_name ++ " " ++ where_clause ++ " " ++ sort_by
    ++ " LIMIT " ++ str_int page_size ++ " OFFSET " ++ str_int offset.

(** The value of the Link header for the next page. *)
Definition next_link (url : string) (query_params : dict Scalar) : string :=
  "<" ++ url ++ "?" ++ urlencode query_params ++ ">; rel=" ++ dquote ++ "next" ++ dquote.

(** Get a paged response from a collection endpoint; inserts the next
    header if applicable.  The result pairs the response object as the call
    leaves it with the returned list. *)
Definition _get_paged_response (db : DB) (request : option Request) (table_name : string)
    (page : Z) (response : option Response) (where_clause sort_by : string) (page_size : Z)
  : IO (option Response * list Row) :=
  let offset := (page - 1) * page_size in
  let last_item := offset + page_size in
  cursor <- sql db (count_statement table_name where_clause) ;;
  count <- lift (subscript0 (fetchone cursor)) ;;
  let url := API_V1_PREFIX ++ "/" ++ table_name in
  query_params <- lift (query_params_dict request) ;;
  has_next <- lift (py_lt_int last_item count) ;;
  let response :=
    match has_next, response with
    | true, Some r =>
        let query_params := dict_set "page" (SInt (page + 1)) query_params in
        Some {| headers := set_header "Link" (next_link url query_params) (headers r) |}
    | _, _ => response
    end in
  page_rows <- _get_list_response db
    (page_statement table_name where_clause sort_by page_size offset) ;;
  ret (response, page_rows).

(** Get a single response from a collection endpoint. *)
Definition _get_single_response (db : DB) (query : string) : IO Row :=
  cursor <- sql db query ;;
  let column_names := description cursor in
  pairs <- lift (zip_row column_names (fetchone cursor)) ;;
  ret (dict_of_items pairs).

Definition selected_tables : list string :=
  ["customers"; "orders"; "items"; "products"; "stores"; "supplies"].

Definition row_count_statement (table : string) : string :=
  "SELECT '" ++ table ++ "' as table_name, COUNT(*) as row_count FROM " ++ table.

(** GET /row-counts *)
Definition row_counts (db : DB) : IO (list Row) :=
  let queries := map row_count_statement selected_tables in
  let query := join " UNION ALL " queries in
  _get_list_response db query.

(** GET /customers *)
Definition get_customers (page page_size : option Z) (response : option Response)
    (request : option Request) (db : DB) : IO (option Response * list Row) :=
  _get_paged_response db request "customers" (arg page 1) response "" ""
    (arg page_size DEFAULT_PAGE_SIZE).

(** GET /customers/{customer_id} *)
Definition get_customer (customer_id : string) (db : DB) : IO Row :=
  _get_single_response db ("SELECT * FROM customers WHERE id = '" ++ customer_id ++ "'").

Definition items_statement (order_id : Scalar) : string :=
  "SELECT * FROM items WHERE order_id = '" ++ py_str order_id ++ "'".

(** Enrich orders with list of items. *)
Fixpoint _enrich_orders (db : DB) (orders : list Row) : IO (list Order) :=
  match orders with
  | [] => ret []
  | order :: rest =>
      id <- lift (getitem order "id") ;;
      items <- _get_list_response db (items_statement id) ;;
      let order := dict_set "items" (ItemList items) (as_order order) in
      rest <- _enrich_orders db rest ;;
      ret (order :: rest)
  end.

(** Lines 171-177 of [get_orders]: the WHERE clause of the date filter. *)
Definition orders_where_clause (start_date end_date : option string) : string :=
  let where_clause := "" in
  let where_clause :=
    match start_date with
    | Some (String _ _ as start_date) =>
        where_clause ++ " AND ordered_at::DATE >= '" ++ start_date ++ "'"
    | _ => where_clause
    end in
  let where_clause :=
    match end_date with
    | Some (String _ _ as end_date) =>
        where_clause ++ " AND ordered_at::DATE <= '" ++ end_date ++ "'"
    | _ => where_clause
    end in
  match where_clause with
  | String _ _ => "WHERE " ++ string_drop 5 where_clause
  | EmptyString => where_clause
  end.

(** GET /orders *)
Definition get_orders (page page_size : option Z) (start_date end_date : option string)
    (response : option Response) (request : option Request) (db : DB)
  : IO (option Response * list Order) :=
  let where_clause := orders_where_clause start_date end_date in
  ' (response, orders) <- _get_paged_response db request "orders" (arg page 1) response
      where_clause "" (arg page_size DEFAULT_PAGE_SIZE) ;;
  enriched <- _enrich_orders db orders ;;
  ret (response, enriched).

(** GET /orders/{order_id} *)
Definition get_order (order_id : string) (db : DB) : IO Order :=
  order <- _get_single_response db ("SELECT * FROM orders WHERE id = '" ++ order_id ++ "'") ;;
  enriched <- _enrich_orders db [order] ;;
  match enriched with
  | first :: _ => ret first
  | [] => lift (Err IndexError)
  end.

(** GET /items *)
Definition get_items (page page_size : option Z) (response : option Response)
    (request : option Request) (db : DB) : IO (option Response * list Row) :=
  _get_paged_response db request "items" (arg page 1) response "" ""
    (arg page_size DEFAULT_PAGE_SIZE).

(** GET /items/{item_id} *)
Definition get_item (item_id : string) (db : DB) : IO Row :=
  _get_single_response db ("SELECT * FROM items WHERE id = '" ++ item_id ++ "'").

(** GET /products *)
Definition get_products (page page_size : option Z) (response : option Response)
    (request : option Request) (db : DB) : IO (option Response * list Row) :=
  _get_paged_response db request "products" (arg page 1) response "" ""
    (arg page_size DEFAULT_PAGE_SIZE).

(** GET /products/{sku} *)
Definition get_product (sku : string) (db : DB) : IO Row :=
  _get_single_response db ("SELECT * FROM products WHERE sku = '" ++ sku ++ "'").

(** GET /stores *)
Definition get_stores (page page_size : option Z) (response : option Response)
    (request : option Request) (db : DB) : IO (option Response * list Row) :=
  _get_paged_response db request "stores" (arg page 1) response "" ""
    (arg page_size DEFAULT_PAGE_SIZE).

(** GET /stores/{store_id} *)
Definition get_store (store_id : string) (db : DB) : IO Row :=
  _get_single_response db ("SELECT * FROM stores WHERE id = '" ++ store_id ++ "'").

(** GET /supplies *)
Definition get_supplies (page page_size : option Z) (response : option Response)
    (request : option Request) (db : DB) : IO (option Response * list Row) :=
  _get_paged_response db request "supplies" (arg page 1) response "" ""
    (arg page_size DEFAULT_PAGE_SIZE).

(** GET /supplies/{supply_id} *)
Definition get_supply (supply_id : string) (db : DB) : IO Row :=
  _get_single_response db ("SELECT * FROM supplies WHERE id = '" ++ supply_id ++ "'").

(** The response object as [_get_paged_response] leaves it. *)
Definition response_after (url : string) (query_params : dict Scalar) (page : Z)
    (has_next : bool) (response : option Response) : option Response :=
  match has_next, response with
  | true, Some r =>
      Some {| headers :=
                set_header "Link"
                  (next_link url (dict_set "page" (SInt (page + 1)) query_params))
                  (headers r) |}
  | _, _ => response
  end.

(** ** The six resources *)

Inductive Resource : Type := Customers | Orders | Items | Products | Stores | Supplies.

Definition table_of (r : Resource) : string :=
  match r with
  | Customers => "customers"
  | Orders => "orders"
  | Items => "items"
  | Products => "products"
  | Stores => "stores"
  | Supplies => "supplies"
  end.

(** The route a list handler is registered under, below the prefix. *)
Definition route_of (r : Resource) : string :=
  match r with
  | Customers => "/customers"
  | Orders => "/orders"
  | Items => "/items"
  | Products => "/products"
  | Stores => "/stores"
  | Supplies => "/supplies"
  end.

(** The column a single-record lookup compares against. *)
Definition key_column_of (r : Resource) : string :=
  match r with
  | Products => "sku"
  | _ => "id"
  end.

(** What a handler of the resource returns per record. *)
Definition record_of (r : Resource) : Type :=
  match r with
  | Orders => Order
  | _ => Row
  end.

(** The list handler of a resource; only orders look at the date bounds. *)
Definition list_handler (r : Resource) (page page_size : option Z)
    (start_date end_date : option string) (response : option Response)
    (request : option Request) (db : DB) : IO (option Response * list (record_of r)) :=
  match r return IO (option Response * list (record_of r)) with
  | Customers => get_customers page page_size response request db
  | Orders => get_orders page page_size start_date end_date response request db
  | Items => get_items page page_size response request db
  | Products => get_products page page_size response request db
  | Stores => get_stores page page_size response request db
  | Supplies => get_supplies page page_size response request db
  end.

(** The WHERE clause the list handler of a resource hands to the pagination
    engine. *)
Definition where_clause_of (r : Resource) (start_date end_date : option string) : string :=
  match r with
  | Orders => orders_where_clause start_date end_date
  | _ => ""
  end.

(** The single-record handler of a resource. *)
Definition single_handler (r : Resource) (identifier : string) (db : DB) : IO (record_of r) :=
  match r return IO (record_of r) with
  | Customers => get_customer identifier db
  | Orders => get_order identifier db
  | Items => get_item identifier db
  | Products => get_product identifier db
  | Stores => get_store identifier db
  | Supplies => get_supply identifier db
  end.

(** The statement a single-record lookup sends. *)
Definition lookup_statement (r : Resource) (identifier : string) : string :=
  "SELECT * FROM " ++ table_of r ++ " WHERE " ++ key_column_of r ++ " = '" ++ identifier ++ "'".

(** ** What the engine is taken to answer *)

(** [db.query(count statement).fetchone()[0]]. *)
Definition total_count (db : DB) (table_name where_clause : string) : result Scalar :=
  match db (count_statement table_name where_clause) with
  | Ok cursor => subscript0 (fetchone cursor)
  | Err e => Err e
  end.


(** The engine answers [statement] with the slice of [matching] that LIMIT
    [limit] OFFSET [offset] cuts out. *)
Definition serves_slice (db : DB) (statement : string) (columns : list string)
    (matching : list (list Scalar)) (limit offset : Z) : Prop :=
  db statement =
    Ok {| description := columns;
          rows := firstn (Z.to_nat limit) (skipn (Z.to_nat offset) matching) |}.

(** The rows of [table] whose [column] holds [v]. *)
Definition rows_where (columns : list string) (table : list (list Scalar))
    (column : string) (v : Scalar) : list (list Scalar) :=
  filter (fun row =>
            match dict_get column (combine columns row) with
            | Some cell => scalar_eqb cell v
            | None => false
            end) table.

(** The engine answers [statement] with the rows of [table] whose [column]
    holds [v]. *)
Definition selects_where (db : DB) (statement : string) (columns : list string)
    (table : list (list Scalar)) (column : string) (v : Scalar) : Prop :=
  db statement = Ok {| description := columns; rows := rows_where columns table column v |}.

(** A row of the engine as the mapping the query executor makes of it. *)
Definition to_dict (columns : list string) (row : list Scalar) : Row :=
  dict_of_items (combine columns row).

(** The item list enrichment attaches for an order id: the rows of the item
    table whose order_id is the id, as mappings. *)
Definition attached (item_columns : list string) (item_table : list (list Scalar))
    (id : Scalar) : list Row :=
  map (to_dict item_columns) (rows_where item_columns item_table "order_id" id).

(** [enriched] is [order] with one more field, items, holding the item list
    of the order's id. *)
Definition enriched_from (item_columns : list string) (item_table : list (list Scalar))
    (order : Row) (enriched : Order) : Prop :=
  exists id,
    dict_get "id" order = Some id
    /\ enriched = (as_order order ++ [("items", ItemList (attached item_columns item_table id))])%list
    /\ dict_get "items" enriched = Some (ItemList (attached item_columns item_table id))
    /\ (rows_where item_columns item_table "order_id" id = [] ->
        dict_get "items" enriched = Some (ItemList [])).

(** ** The parameters of the next link *)

(** [request.query_params[name]]: the value the name has last in the query
    string. *)
Fixpoint last_value {V : Type} (name : string) (params : list (string * V)) : option V :=
  match params with
  | [] => None
  | (k, v) :: rest =>
      match last_value name rest with
      | Some v' => Some v'
      | None => if String.eqb k name then Some v else None
      end
  end.

Definition as_text (kv : string * string) : string * Scalar := (fst kv, SStr (snd kv)).

(** [dict(request.query_params)] of a request that is there. *)
Definition original_params (request : Request) : dict Scalar :=
  dict_of_items (map (fun kv => (fst kv, SStr (snd kv))) (query_params request)).

(** The parameters the next link carries: the request's with page set to the
    page after [page]. *)
Definition next_params (request : Request) (page : Z) : dict Scalar :=
  dict_set "page" (SInt (page + 1)) (original_params request).

(** The parameters other than page. *)
Definition other_than_page {V : Type} (params : list (string * V)) : list (string * V) :=
  filter (fun kv => negb (String.eqb (fst kv) "page")) params.

(** ** The date filter, as the specification words it *)

Definition not_before (date : string) : string := "ordered_at::DATE >= '" ++ date ++ "'".
Definition not_after (date : string) : string := "ordered_at::DATE <= '" ++ date ++ "'".

(** Both bounds: the two conditions joined by AND under one WHERE; one
    bound: that condition alone; none: no WHERE clause. *)
Definition date_filter (lower upper : option string) : string :=
  match lower, upper with
  | Some s, Some e => "WHERE " ++ not_before s ++ " AND " ++ not_after e
  | Some s, None => "WHERE " ++ not_before s
  | None, Some e => "WHERE " ++ not_after e
  | None, None => ""
  end.

(** The bound a date argument supplies to the filter: an argument left out
    and an empty one supply none. *)
Definition bound (date : option string) : option string :=
  match date with
  | Some (String _ _ as d) => Some d
  | _ => None
  end.

(** A test double for the engine: it knows the listed statements and raises
    on any other. *)
Definition engine_of (answers : list (string * Cursor)) : DB :=
  fun query =>
    match dict_get query answers with
    | Some cursor => Ok cursor
    | None => Err (QueryError "unknown statement")
    end.

(** ** A small shop to run the handlers on *)

Definition customer_columns : list string := ["id"; "name"].

Definition customer_table : list (list Scalar) :=
  [[SStr "c1"; SStr "Ann"]; [SStr "c2"; SStr "Bob"]; [SStr "c3"; SStr "Cy"]].

Definition item_columns : list string := ["id"; "order_id"; "sku"].

Definition item_table : list (list Scalar) :=
  [[SStr "i1"; SStr "o1"; SStr "JAF-001"];
   [SStr "i2"; SStr "o7"; SStr "BEV-002"];
   [SStr "i3"; SStr "o1"; SStr "BEV-001"]].

Definition order_columns : list string := ["id"; "customer_id"; "order_total"].

Definition order_table : list (list Scalar) :=
  [[SStr "o1"; SStr "c1"; SInt 1200]; [SStr "o2"; SStr "c3"; SInt 700]].

Definition order_rows : list Row :=
  [[("id", SStr "o1"); ("customer_id", SStr "c1"); ("order_total", SInt 1200)];
   [("id", SStr "o2"); ("customer_id", SStr "c3"); ("order_total", SInt 700)]].

(** The January filter of the orders handler. *)
Definition january : string :=
  "WHERE ordered_at::DATE >= '2023-01-01' AND ordered_at::DATE <= '2023-01-31'".

Definition table_sizes (table : string) : Z :=
  if String.eqb table "customers" then 3
  else if String.eqb table "orders" then 2
  else if String.eqb table "items" then 3
  else if String.eqb table "products" then 10
  else if String.eqb table "stores" then 6
  else 65.

Definition count_cursor (n : Z) : Cursor :=
  {| description := ["count_star()"]; rows := [[SInt n]] |}.

Definition row_count_cursor (table : string) : Cursor :=
  {| description := ["table_name"; "row_count"];
     rows := [[SStr table; SInt (table_sizes table)]] |}.

(** An engine that knows the statements the examples below send. *)
Definition shop : DB :=
  engine_of
    ([(count_statement "customers" "", count_cursor 3);
      (page_statement "customers" "" "" 2 0,
       {| description := customer_columns; rows := firstn 2 customer_table |});
      (page_statement "customers" "" "" 2 4,
       {| description := customer_columns; rows := [] |});
      (lookup_statement Customers "c9",
       {| description := customer_columns; rows := [] |});
      (count_statement "orders" january, count_cursor 2);
      (page_statement "orders" january "" 100 0,
       {| description := order_columns; rows := order_table |});
      (items_statement (SStr "o1"),
       {| description := item_columns;
          rows := rows_where item_columns item_table "order_id" (SStr "o1") |});
      (items_statement (SStr "o2"),
       {| description := item_columns;
          rows := rows_where item_columns item_table "order_id" (SStr "o2") |});
      (join " UNION ALL " (map row_count_statement selected_tables),
       {| description := ["table_name"; "row_count"];
          rows := List.concat (map (fun t => rows (row_count_cursor t)) selected_tables) |})]
     ++ map (fun t => (row_count_statement t, row_count_cursor t)) selected_tables
     ++ map (fun t => (count_statement t "", count_cursor (table_sizes t)))
          (tl selected_tables))%list.

Definition fresh_response : Response := {| headers := [] |}.

Definition plain_request : Request := {| query_params := [("page_size", "2")] |}.

Definition repeating_request : Request :=
  {| query_params := [("tag", "a"); ("page_size", "2"); ("tag", "b")] |}.

(** What the first page of customers, two per page, looks like. *)
Definition first_page_log : list string :=
  [count_statement "customers" ""; page_statement "customers" "" "" 2 0].

Definition first_page : list Row := map (to_dict customer_columns) (firstn 2 customer_table).

Definition linked_response : Response :=
  {| headers :=
       [("link",
         "</api/v1/customers?page_size=2&page=2>; rel=" ++ dquote ++ "next" ++ dquote)] |}.

(** ** Vocabulary for the properties beyond the claims *)

(** The statement text begins with SELECT. *)
Definition starts_with_select (statement : string) : bool :=
  String.prefix "SELECT " statement.

(** Every byte of the text satisfies [p]. *)
Fixpoint all_chars (p : ascii -> bool) (s : string) : bool :=
  match s with
  | EmptyString => true
  | String c rest => p c && all_chars p rest
  end.

(** The bytes a url-encoded query string is made of: the always-safe ones,
    the percent and plus of an escape, and the two separators. *)
Definition link_safe (c : ascii) : bool :=
  is_always_safe c || Ascii.eqb c "%" || Ascii.eqb c "+" || Ascii.eqb c "="
  || Ascii.eqb c "&".

(** How many headers of that name the list holds. *)
Definition count_header (k : string) (l : list (string * string)) : nat :=
  List.length (filter (fun kv => String.eqb (fst kv) k) l).

(** What a run of a list handler returns to its caller: the list, or the
    exception. *)
Definition returned_rows {A : Type} (run : list string * result (option Response * list A))
  : result (list A) :=
  match snd run with
  | Ok (_, page_rows) => Ok page_rows
  | Err e => Err e
  end.

(** The order row has an id and the engine answers its items statement. *)
Definition items_answered (db : DB) (order : Row) : Prop :=
  match dict_get "id" order with
  | Some id =>
      match db (items_statement id) with
      | Ok _ => True
      | Err _ => False
      end
  | None => False
  end.

(** The item list the engine's answer gives for an order id; empty when the
    engine raises. *)
Definition items_found (db : DB) (id : Scalar) : list Row :=
  match db (items_statement id) with
  | Ok cursor => map (to_dict (description cursor)) (rows cursor)
  | Err _ => []
  end.

(** The rows of the page the engine cuts out of [matching]. *)
Definition slice (columns : list string) (matching : list (list Scalar))
    (page_size offset : Z) : list Row :=
  map (to_dict columns) (firstn (Z.to_nat page_size) (skipn (Z.to_nat offset) matching)).

(** ** A second engine, for the properties beyond the claims *)

Definition bazaar : DB :=
  engine_of
    [(count_statement "customers" "", count_cursor 3);
     (page_statement "customers" "" "" 2 0,
      {| description := customer_columns; rows := firstn 2 customer_table |});
     (page_statement "customers" "" "" 2 2,
      {| description := customer_columns; rows := skipn 2 customer_table |});
     (page_statement "customers" "" "" 0 0,
      {| description := customer_columns; rows := [] |});
     (lookup_statement Orders "2023-o1",
      {| description := order_columns; rows := [[SStr "o1"; SStr "c1"; SInt 1200]] |});
     (items_statement (SStr "o1"),
      {| description := item_columns;
         rows := rows_where item_columns item_table "order_id" (SStr "o1") |})].

(** A response that already carries headers, two of them named Link. *)
Definition stale_response : Response :=
  {| headers := [("link", "old"); ("x-trace", "1"); ("link", "older")] |}.

Definition relinked_response : Response :=
  {| headers :=
       [("link",
         "</api/v1/customers?page_size=2&page=2>; rel=" ++ dquote ++ "next" ++ dquote);
        ("x-trace", "1")] |}.

Definition zero_size_request : Request :=
  {| query_params := [("page", "5"); ("page_size", "0")] |}.

Definition january_log : list string :=
  [count_statement "orders" january;
   page_statement "orders" january "" 100 0;
   items_statement (SStr "o1");
   items_statement (SStr "o2")].

Definition items_of_o1 : list Row :=
  [to_dict item_columns [SStr "i1"; SStr "o1"; SStr "JAF-001"];
   to_dict item_columns [SStr "i3"; SStr "o1"; SStr "BEV-001"]].

Definition january_orders : list Order :=
  [(as_order (to_dict order_columns [SStr "o1"; SStr "c1"; SInt 1200])
      ++ [("items", ItemList items_of_o1)])%list;
   (as_order (to_dict order_columns [SStr "o2"; SStr "c3"; SInt 700])
      ++ [("items", ItemList [])])%list].

(** An order row that already has a field named items. *)
Definition order_with_items : Row := [("id", SStr "o1"); ("items", SInt 5); ("note", SNone)].

(** ** What the claims take the engine to answer *)

(** The six monitored tables, in the order of the summary. *)
Definition monitored : list Resource :=
  [Customers; Orders; Items; Products; Stores; Supplies].


(** The text holds no single quote. *)
Definition quote_free (s : string) : bool :=
  all_chars (fun c => negb (Ascii.eqb c "'")) s.


(** The engine answers the count statement of the table under the filter
    with one row holding [total]. *)
Definition counts (db : DB) (table filter : string) (total : Z) : Prop :=
  exists columns,
    db (Sql.count table filter) = Ok {| description := columns; rows := [[SInt total]] |}.

(** Where the scanner of a statement stands: in the statement proper, inside
    a literal between single quotes, or in a line comment. *)
Inductive SqlMode : Type := InCode | InLiteral | InComment.

Definition starts_with_dash (s : string) : bool :=
  match s with
  | String c _ => Ascii.eqb c "-"
  | EmptyString => false
  end.


(** The engine answers the UNION ALL of [statements] with the rows of the
    answers to each of them, one after another, under the columns of the
    first. *)
Definition unions_all (db : DB) (statements : list string) : Prop :=
  exists cursors,
    Forall2 (fun statement cursor => db statement = Ok cursor) statements cursors /\
    db (Sql.union_all statements) =
      Ok {| description := match cursors with c :: _ => description c | [] => [] end;
            rows := List.concat (map rows cursors) |}.

(** The order row can be enriched: it has an id whose text holds no single
    quote, no items field yet, and the engine answers the statement that
    selects the items of that id with the rows of the item table whose
    order_id is the id. *)
Definition enrichable (db : DB) (item_columns : list string)
    (item_table : list (list Scalar)) (order : Row) : Prop :=
  match dict_get "id" order with
  | Some id =>
      dict_get "items" order = None
      /\ quote_free (py_str id) = true
      /\ selects_where db (Sql.items_of (py_str id)) item_columns item_table "order_id" id
  | None => False
  end.

(** The engine counts a monitored table the same way in both statements:
    the named count yields the table's name and [n], and so does a COUNT
    star on the table alone. *)
Definition counts_table (db : DB) (n : Resource -> Z) (r : Resource) : Prop :=
  db (Sql.named_count (table_of r))
    = Ok {| description := ["table_name"; "row_count"];
            rows := [[SStr (table_of r); SInt (n r)]] |}
  /\ counts db (table_of r) "" (n r).

(** ** A third engine, keyed on the statements as text *)

Definition market_sizes (r : Resource) : Z :=
  match r with
  | Customers => 3
  | Orders => 2
  | Items => 3
  | Products => 10
  | Stores => 6
  | Supplies => 65
  end.

Definition named_count_cursor (table : string) (n : Z) : Cursor :=
  {| description := ["table_name"; "row_count"]; rows := [[SStr table; SInt n]] |}.

Definition market : DB :=
  engine_of
    [("SELECT COUNT(*) FROM customers ", count_cursor 3);
     ("SELECT COUNT(*) FROM orders ", count_cursor 2);
     ("SELECT COUNT(*) FROM items ", count_cursor 3);
     ("SELECT COUNT(*) FROM products ", count_cursor 10);
     ("SELECT COUNT(*) FROM stores ", count_cursor 6);
     ("SELECT COUNT(*) FROM supplies ", count_cursor 65);
     ("SELECT 'customers' as table_name, COUNT(*) as row_count FROM customers",
      named_count_cursor "customers" 3);
     ("SELECT 'orders' as table_name, COUNT(*) as row_count FROM orders",
      named_count_cursor "orders" 2);
     ("SELECT 'items' as table_name, COUNT(*) as row_count FROM items",
      named_count_cursor "items" 3);
     ("SELECT 'products' as table_name, COUNT(*) as row_count FROM products",
      named_count_cursor "products" 10);
     ("SELECT 'stores' as table_name, COUNT(*) as row_count FROM stores",
      named_count_cursor "stores" 6);
     ("SELECT 'supplies' as table_name, COUNT(*) as row_count FROM supplies",
      named_count_cursor "supplies" 65);
     ("SELECT 'customers' as table_name, COUNT(*) as row_count FROM customers UNION ALL SELECT 'orders' as table_name, COUNT(*) as row_count FROM orders UNION ALL SELECT 'items' as table_name, COUNT(*) as row_count FROM items UNION ALL SELECT 'products' as table_name, COUNT(*) as row_count FROM products UNION ALL SELECT 'stores' as table_name, COUNT(*) as row_count FROM stores UNION ALL SELECT 'supplies' as table_name, COUNT(*) as row_count FROM supplies",
      {| description := ["table_name"; "row_count"];
         rows := [[SStr "customers"; SInt 3]; [SStr "orders"; SInt 2];
                  [SStr "items"; SInt 3]; [SStr "products"; SInt 10];
                  [SStr "stores"; SInt 6]; [SStr "supplies"; SInt 65]] |});
     ("SELECT COUNT(*) FROM orders WHERE ordered_at::DATE >= '2023-01-01' AND ordered_at::DATE <= '2023-01-31'",
      count_cursor 2);
     ("SELECT * FROM orders WHERE ordered_at::DATE >= '2023-01-01' AND ordered_at::DATE <= '2023-01-31'  LIMIT 1 OFFSET 0",
      {| description := order_columns; rows := firstn 1 order_table |});
     ("SELECT * FROM orders WHERE ordered_at::DATE >= '2023-01-01' AND ordered_at::DATE <= '2023-01-31'  LIMIT 1 OFFSET 2",
      {| description := order_columns; rows := [] |});
     ("SELECT * FROM items WHERE order_id = 'o1'",
      {| description := item_columns;
         rows := [[SStr "i1"; SStr "o1"; SStr "JAF-001"];
                  [SStr "i3"; SStr "o1"; SStr "BEV-001"]] |});
     ("SELECT * FROM items WHERE order_id = 'o2'",
      {| description := item_columns; rows := [] |});
     ("SELECT COUNT(*) FROM orders WHERE ordered_at::DATE >= '2023-01-01' --'",
      count_cursor 2);
     ("SELECT * FROM orders WHERE ordered_at::DATE >= '2023-01-01' --'  LIMIT 1 OFFSET 0",
      {| description := order_columns; rows := order_table |});
     ("SELECT * FROM orders WHERE ordered_at::DATE >= '2023-01-01' --'  LIMIT 1 OFFSET 5",
      {| description := order_columns; rows := order_table |})].







(** A start date that closes its literal and opens a comment. *)
Definition leaking_date : string := "2023-01-01' --".


Definition leaked_count : string :=
  "SELECT COUNT(*) FROM orders WHERE ordered_at::DATE >= '2023-01-01' --'".



(** The string literals of a statement, in order; [None] when the statement
    ends inside a literal.  [current] is the part of the literal read so
    far. *)
Fixpoint literals_from (mode : SqlMode) (current statement : string)
  : option (list string) :=
  match statement with
  | EmptyString =>
      match mode with
      | InLiteral => None
      | _ => Some []
      end
  | String c rest =>
      match mode with
      | InLiteral =>
          if Ascii.eqb c "'" then option_map (cons current) (literals_from InCode "" rest)
          else literals_from InLiteral (current ++ String c "") rest
      | InComment =>
          literals_from (if Ascii.eqb c (ascii_of_nat 10) then InCode else InComment) "" rest
      | InCode =>
          if Ascii.eqb c "'" then literals_from InLiteral "" rest
          else if Ascii.eqb c "-" && starts_with_dash rest then literals_from InComment "" rest
          else literals_from InCode "" rest
      end
  end.

Definition literals (statement : string) : option (list string) :=
  literals_from InCode "" statement.

(** [statement] selects the items of the order: it is the items statement of
    the order's id, and the one literal it compares order_id with spells
    that id. *)
Definition asks_for_items_of (order : Row) (statement : string) : Prop :=
  exists id,
    dict_get "id" order = Some id
    /\ statement = Sql.items_of (py_str id)
    /\ literals statement = Some [py_str id].

(** An order whose id holds a single quote. *)
Definition quoted_order : Row := [("id", SStr "o'7"); ("customer_id", SStr "c1")].

(** The orders request whose start date comments the LIMIT out. *)
Definition leaking_request : Request :=
  {| query_params := [("page_size", "1"); ("start_date", leaking_date)] |}.



(** ** Dictionaries and the query executor: basic facts *)

Lemma append_assoc (a b c : string) : (a ++ b) ++ c = a ++ (b ++ c).
Proof.
  induction a as [|ch a IH]; simpl; [reflexivity|now rewrite IH].
Qed.

Lemma dict_set_fresh {V : Type} (k : string) (v : V) (d : dict V) :
  dict_get k d = None -> dict_set k v d = (d ++ [(k, v)])%list.
Proof.
  induction d as [|[k' v'] rest IH]; simpl; intros H.
  - reflexivity.
  - destruct (String.eqb k' k); [discriminate|].
    now rewrite IH.
Qed.

Lemma dict_get_none_iff {V : Type} (k : string) (d : dict V) :
  dict_get k d = None <-> ~ In k (keys d).
Proof.
  induction d as [|[k' v'] rest IH]; simpl.
  - tauto.
  - destruct (String.eqb_spec k' k) as [->|Hne].
    + split; [discriminate|intros H; exfalso; apply H; now left].
    + rewrite IH. split; intros H; [intros [E|E]; [now apply Hne|now apply H]|tauto].
Qed.

Lemma fold_dict_set_nodup {V : Type} (items acc : list (string * V)) :
  NoDup (map fst (acc ++ items)%list) ->
  fold_left (fun d kv => dict_set (fst kv) (snd kv) d) items acc = (acc ++ items)%list.
Proof.
  revert acc. induction items as [|[k v] rest IH]; intros acc Hnd; simpl.
  - now rewrite app_nil_r.
  - assert (Hfresh : dict_get k acc = None).
    { apply dict_get_none_iff. unfold keys. intros Hin.
      rewrite map_app in Hnd. simpl in Hnd.
      apply NoDup_remove_2 in Hnd. apply Hnd. apply in_or_app. now left. }
    rewrite (dict_set_fresh _ _ _ Hfresh).
    rewrite IH; rewrite <- app_assoc; simpl; [reflexivity|exact Hnd].
Qed.

(** A list of pairs with pairwise distinct names is its own dict. *)
Lemma dict_of_items_nodup {V : Type} (items : list (string * V)) :
  NoDup (map fst items) -> dict_of_items items = items.
Proof.
  intros H. unfold dict_of_items. now rewrite fold_dict_set_nodup.
Qed.

Lemma list_response_run (db : DB) (query : string) (log : list string) :
  _get_list_response db query log =
    ((log ++ [query])%list,
     match db query with
     | Ok cursor =>
         Ok (map (fun row => dict_of_items (combine (description cursor) row)) (rows cursor))
     | Err e => Err e
     end).
Proof.
  unfold _get_list_response, bind, sql, ret, fetchall.
  destruct (db query); reflexivity.
Qed.

Lemma single_response_run (db : DB) (query : string) (log : list string) :
  _get_single_response db query log =
    ((log ++ [query])%list,
     match db query with
     | Ok cursor =>
         match rows cursor with
         | [] => Err TypeError
         | first :: _ => Ok (dict_of_items (combine (description cursor) first))
         end
     | Err e => Err e
     end).
Proof.
  unfold _get_single_response, bind, sql, ret, lift, zip_row, fetchone.
  destruct (db query) as [cursor|e]; [|reflexivity].
  destruct (rows cursor); reflexivity.
Qed.

(** ** Single-record lookups *)

(** Every single-record handler sends the lookup statement of its resource
    through single mode; the order handler then enriches the one record. *)
Lemma single_handler_unfold (r : Resource) (identifier : string) (db : DB) :
  single_handler r identifier db =
    match r return IO (record_of r) with
    | Orders =>
        order <- _get_single_response db (lookup_statement Orders identifier) ;;
        enriched <- _enrich_orders db [order] ;;
        match enriched with
        | first :: _ => ret first
        | [] => lift (Err IndexError)
        end
    | Customers => _get_single_response db (lookup_statement Customers identifier)
    | Items => _get_single_response db (lookup_statement Items identifier)
    | Products => _get_single_response db (lookup_statement Products identifier)
    | Stores => _get_single_response db (lookup_statement Stores identifier)
    | Supplies => _get_single_response db (lookup_statement Supplies identifier)
    end.
Proof.
  destruct r; reflexivity.
Qed.

(** C1 (as amended): for each of the six resources, a single-record lookup
    whose statement the engine answers with zero rows sends that one
    statement and raises TypeError (zip over the None that fetchone
    returned); it returns no record and does not raise NotFound. *)
Theorem lookup_of_absent_record_raises_TypeError :
  forall (r : Resource) (identifier : string) (db : DB) (columns : list string)
         (log : list string),
    db (lookup_statement r identifier) = Ok {| description := columns; rows := [] |} ->
    single_handler r identifier db log
      = ((log ++ [lookup_statement r identifier])%list, Err TypeError)
    /\ snd (single_handler r identifier db log) <> Err NotFound.
Proof.
  intros r identifier db columns log H.
  assert (E : single_handler r identifier db log
              = ((log ++ [lookup_statement r identifier])%list, Err TypeError)).
  { rewrite single_handler_unfold.
    destruct r; unfold bind; rewrite single_response_run, H; reflexivity. }
  split; [exact E|]. rewrite E. simpl. discriminate.
Qed.

(** C10: when the engine answers a single-record statement with one or more
    rows, single mode sends that one statement and returns the mapping built
    from the column names and the first row; the rows after the first have no
    part in the result and raise nothing.  With pairwise distinct column
    names that mapping is the list of (column, value) pairs itself. *)
Theorem single_response_is_first_row :
  forall (db : DB) (query : string) (columns : list string) (first : list Scalar)
         (others : list (list Scalar)) (log : list string),
    db query = Ok {| description := columns; rows := first :: others |} ->
    _get_single_response db query log
      = ((log ++ [query])%list, Ok (dict_of_items (combine columns first)))
    /\ (NoDup columns -> dict_of_items (combine columns first) = combine columns first).
Proof.
  intros db query columns first others log H. split.
  - rewrite single_response_run, H. reflexivity.
  - intros Hnd. clear H. apply dict_of_items_nodup.
    revert first. induction Hnd as [|c cs Hc Hcs IH]; intros [|v vs]; simpl;
      try constructor.
    + intros Hin. apply Hc. clear -Hin. revert vs Hin.
      induction cs as [|c' cs' IH']; intros [|v' vs']; simpl; try tauto.
      intros [E|Hin]; [now left|right; eauto].
    + apply IH.
Qed.

(** ** The pagination engine *)

Lemma paged_response_inv (db : DB) (request : option Request) (table_name : string)
    (page : Z) (response : option Response) (where_clause sort_by : string)
    (page_size : Z) (log log' : list string) (response' : option Response)
    (page_rows : list Row) :
  _get_paged_response db request table_name page response where_clause sort_by page_size log
    = (log', Ok (response', page_rows)) ->
  exists count query_params has_next cursor,
    total_count db table_name where_clause = Ok count
    /\ query_params_dict request = Ok query_params
    /\ py_lt_int ((page - 1) * page_size + page_size) count = Ok has_next
    /\ db (page_statement table_name where_clause sort_by page_size ((page - 1) * page_size))
         = Ok cursor
    /\ response'
         = response_after (API_V1_PREFIX ++ "/" ++ table_name) query_params page has_next response
    /\ page_rows
         = map (fun row => dict_of_items (combine (description cursor) row)) (rows cursor)
    /\ log' = (log ++ [count_statement table_name where_clause;
                       page_statement table_name where_clause sort_by page_size
                         ((page - 1) * page_size)])%list.
Proof.
  unfold _get_paged_response, total_count, bind, sql, lift, ret.
  destruct (db (count_statement table_name where_clause)) as [ccur|e]; [|discriminate].
  destruct (subscript0 (fetchone ccur)) as [count|e]; [|discriminate].
  destruct (query_params_dict request) as [query_params|e]; [|discriminate].
  destruct (py_lt_int ((page - 1) * page_size + page_size) count) as [has_next|e] eqn:Hlt;
    [|discriminate].
  rewrite list_response_run.
  destruct (db (page_statement table_name where_clause sort_by page_size
                  ((page - 1) * page_size))) as [cursor|e]; [|discriminate].
  intros H. injection H as Hlog Hresp Hrows.
  exists count, query_params, has_next, cursor. subst.
  repeat split; try reflexivity; try assumption.
  now rewrite <- app_assoc.
Qed.


(** ** Order enrichment *)

Lemma dict_get_as_order (k : string) (order : Row) :
  dict_get k (as_order order) = option_map Scal (dict_get k order).
Proof.
  induction order as [|[k' v'] rest IH]; simpl; [reflexivity|].
  destruct (String.eqb k' k); [reflexivity|exact IH].
Qed.

Lemma dict_get_app_last {V : Type} (k : string) (v : V) (d : dict V) :
  dict_get k d = None -> dict_get k (d ++ [(k, v)])%list = Some v.
Proof.
  induction d as [|[k' v'] rest IH]; simpl; intros H.
  - now rewrite String.eqb_refl.
  - destruct (String.eqb k' k); [discriminate|auto].
Qed.

(** Enrichment only ever adds statements to those already sent, and a list
    it returns is as long as the one it was given. *)
Lemma enrich_orders_inv (db : DB) (orders : list Row) :
  forall (log log' : list string) (enriched : list Order),
    _enrich_orders db orders log = (log', Ok enriched) ->
    List.length enriched = List.length orders
    /\ exists extra, log' = (log ++ extra)%list.
Proof.
  induction orders as [|order rest IH]; intros log log' enriched; simpl.
  - unfold ret. intros H. injection H as <- <-. split; [reflexivity|].
    exists []. now rewrite app_nil_r.
  - unfold bind at 1, lift. destruct (getitem order "id") as [id|e]; [|discriminate].
    unfold bind at 1. rewrite list_response_run.
    destruct (db (items_statement id)) as [cursor|e]; [|discriminate].
    unfold bind at 1.
    destruct (_enrich_orders db rest (log ++ [items_statement id])%list)
      as [log1 [rest'|e]] eqn:E; [|discriminate].
    unfold ret. intros H. injection H as <- <-.
    destruct (IH _ _ _ E) as [Hlen [extra ->]]. split.
    + simpl. now rewrite Hlen.
    + exists (items_statement id :: extra). now rewrite <- app_assoc.
Qed.

(** ** List handlers *)

Lemma get_header_set_header (k v : string) (l : list (string * string)) :
  dict_get k (replace_header k v l) = Some v.
Proof.
  induction l as [|[k' v'] rest IH]; simpl.
  - now rewrite String.eqb_refl.
  - destruct (String.eqb k' k) eqn:E; simpl.
    + now rewrite String.eqb_refl.
    + now rewrite E.
Qed.

(** Every list handler is the pagination engine on the table of its
    resource; the orders handler enriches the page afterwards. *)
Lemma list_handler_inv (r : Resource) (page page_size : option Z)
    (start_date end_date : option string) (response : option Response)
    (request : option Request) (db : DB) (log log' : list string)
    (response' : option Response) (page_rows : list (record_of r)) :
  list_handler r page page_size start_date end_date response request db log
    = (log', Ok (response', page_rows)) ->
  exists log1 rows0 extra,
    _get_paged_response db request (table_of r) (arg page 1) response
      (where_clause_of r start_date end_date) "" (arg page_size DEFAULT_PAGE_SIZE) log
      = (log1, Ok (response', rows0))
    /\ List.length page_rows = List.length rows0
    /\ log' = (log1 ++ extra)%list.
Proof.
  destruct r; simpl in *;
    try (intros H; exists log', page_rows, []; rewrite app_nil_r; repeat split; exact H).
  unfold get_orders, bind.
  destruct (_get_paged_response db request "orders" (arg page 1) response
              (orders_where_clause start_date end_date) ""
              (arg page_size DEFAULT_PAGE_SIZE) log) as [log1 [[resp0 orders0]|e]];
    [|discriminate].
  destruct (_enrich_orders db orders0 log1) as [log2 [enriched|e]] eqn:E; [|discriminate].
  unfold ret. intros H. injection H as <- <- <-.
  destruct (enrich_orders_inv _ _ _ _ _ E) as [Hlen [extra ->]].
  exists log1, orders0, extra. repeat split. exact Hlen.
Qed.



Lemma items_statement_as_specified (id : Scalar) :
  items_statement id = Sql.items_of (py_str id).
Proof. reflexivity. Qed.


Lemma summary_statement_as_specified :
  join " UNION ALL " (map row_count_statement selected_tables)
    = Sql.union_all (map Sql.named_count (map table_of monitored)).
Proof. reflexivity. Qed.



(** ** What the engine reads of a statement *)

Lemma append_empty (s : string) : s ++ "" = s.
Proof.
  induction s as [|c s IH]; simpl; [reflexivity|now rewrite IH].
Qed.











(** ** The date filter of the orders handler *)

(** C4 (as amended): the WHERE clause the orders handler builds is the date
    filter of the bounds that are supplied and not empty: both of them, the
    two inclusive conditions on ordered_at joined by AND under one WHERE;
    exactly one, that condition alone; none, the empty string.  A bound
    given as the empty string counts as not supplied. *)
Theorem orders_where_clause_is_date_filter :
  forall start_date end_date : option string,
    orders_where_clause start_date end_date = date_filter (bound start_date) (bound end_date).
Proof.
  intros [[|c s]|] [[|c' e]|]; reflexivity.
Qed.

(** ** Enrichment attaches the items of each order *)

Lemma literals_of_literal (d current rest : string) :
  quote_free d = true ->
  literals_from InLiteral current (d ++ String "'" rest)
    = option_map (cons (current ++ d)) (literals_from InCode "" rest).
Proof.
  revert current. induction d as [|c d IH]; simpl; intros current H.
  - now rewrite append_empty.
  - apply andb_true_iff in H. destruct H as [Hc Hd].
    apply negb_true_iff in Hc. rewrite Hc, IH by exact Hd.
    now rewrite append_assoc.
Qed.

(** The items statement of an id that holds no quote compares order_id with
    one literal, the id. *)
Lemma items_statement_literals (order_id : string) :
  quote_free order_id = true ->
  literals (Sql.items_of order_id) = Some [order_id].
Proof.
  intros H. unfold literals, Sql.items_of, Sql.words. cbn.
  now rewrite literals_of_literal.
Qed.

(** C3 (as amended): for every list of order rows that each have an id field
    whose text holds no single quote (and no items field yet), the engine
    answering the statement that selects the items of each order with the
    item rows whose order_id is that id: enrichment sends one such statement
    per order, in order, and returns a list of the same length, in the same
    order, in which each element is the order with exactly one more field,
    items, holding the list of those item rows; when no item row matches,
    the field is present and holds the empty list. *)
Theorem enrich_orders_attaches_items :
  forall (db : DB) (item_columns : list string) (item_table : list (list Scalar))
         (orders : list Row) (log : list string),
    Forall (enrichable db item_columns item_table) orders ->
    exists (enriched : list Order) (statements : list string),
      _enrich_orders db orders log = ((log ++ statements)%list, Ok enriched)
      /\ Forall2 asks_for_items_of orders statements
      /\ List.length statements = List.length orders
      /\ List.length enriched = List.length orders
      /\ Forall2 (enriched_from item_columns item_table) orders enriched.
Proof.
  intros db item_columns item_table orders.
  induction orders as [|order rest IH]; intros log Hall.
  - exists [], []. simpl. unfold ret. rewrite app_nil_r. repeat split; constructor.
  - inversion Hall as [|? ? Hhead Htail]; subst.
    unfold enrichable in Hhead.
    destruct (dict_get "id" order) as [id|] eqn:Hid; [|contradiction].
    destruct Hhead as (Hfresh & Hquotes & Hsel).
    rewrite <- items_statement_as_specified in Hsel.
    destruct (IH (log ++ [items_statement id])%list Htail)
      as (enriched & statements & Hrun & Hasks & Hlen1 & Hlen2 & Hall2).
    assert (Hset : dict_set "items" (ItemList (attached item_columns item_table id))
                     (as_order order)
                   = (as_order order
                        ++ [("items", ItemList (attached item_columns item_table id))])%list).
    { apply dict_set_fresh. rewrite dict_get_as_order, Hfresh. reflexivity. }
    exists ((as_order order ++ [("items", ItemList (attached item_columns item_table id))])%list
              :: enriched), (items_statement id :: statements).
    split; [|split; [|split; [|split]]].
    + simpl. unfold bind at 1, lift, getitem. rewrite Hid.
      unfold bind at 1. rewrite list_response_run. unfold selects_where in Hsel.
      rewrite Hsel. unfold bind at 1. cbn [description rows].
      change (map (fun row => dict_of_items (combine item_columns row))
                (rows_where item_columns item_table "order_id" id))
        with (attached item_columns item_table id).
      rewrite Hset, Hrun. unfold ret. now rewrite <- app_assoc.
    + constructor; [|exact Hasks].
      exists id. rewrite items_statement_as_specified.
      repeat split; [exact Hid|]. apply items_statement_literals. exact Hquotes.
    + simpl. now rewrite Hlen1.
    + simpl. now rewrite Hlen2.
    + constructor; [|exact Hall2].
      exists id. split; [exact Hid|]. split; [reflexivity|].
      assert (Hget : dict_get "items"
                       (as_order order
                          ++ [("items", ItemList (attached item_columns item_table id))])%list
                     = Some (ItemList (attached item_columns item_table id))).
      { apply dict_get_app_last. rewrite dict_get_as_order, Hfresh. reflexivity. }
      split; [exact Hget|].
      intros Hnone. rewrite Hget. unfold attached. now rewrite Hnone.
Qed.

(** ** The row-count summary *)

(** C8: the engine counting each of the six monitored tables as [n], in the
    named count as in a COUNT star on the table alone, and answering a
    UNION ALL with the rows of its parts: the summary sends one statement,
    the UNION ALL of the six named counts, and returns six rows, one per
    table in the order customers, orders, items, products, stores, supplies,
    each holding the table's name under table_name and its count under
    row_count. *)
Theorem row_counts_one_row_per_table :
  forall (db : DB) (n : Resource -> Z) (log : list string),
    Forall (counts_table db n) monitored ->
    unions_all db (map Sql.named_count (map table_of monitored)) ->
    row_counts db log
      = ((log ++ [Sql.union_all
                    (map Sql.named_count
                       ["customers"; "orders"; "items"; "products"; "stores"; "supplies"])])%list,
         Ok [[("table_name", SStr "customers"); ("row_count", SInt (n Customers))];
             [("table_name", SStr "orders"); ("row_count", SInt (n Orders))];
             [("table_name", SStr "items"); ("row_count", SInt (n Items))];
             [("table_name", SStr "products"); ("row_count", SInt (n Products))];
             [("table_name", SStr "stores"); ("row_count", SInt (n Stores))];
             [("table_name", SStr "supplies"); ("row_count", SInt (n Supplies))]]).
Proof.
  intros db n log Hcounts (cursors & Hparts & Hunion).
  unfold row_counts. rewrite list_response_run, summary_statement_as_specified, Hunion.
  f_equal. f_equal.
  unfold monitored in *. cbn [map table_of] in Hparts.
  repeat match goal with
         | H : Forall2 _ (_ :: _) _ |- _ => inversion H; subst; clear H
         | H : Forall2 _ [] _ |- _ => inversion H; subst; clear H
         | H : Forall _ (_ :: _) |- _ => inversion H; subst; clear H
         end.
  repeat match goal with
         | H : counts_table _ _ _ |- _ => destruct H as [H _]; cbn [table_of] in H
         end.
  repeat match goal with
         | H : db ?q = Ok _, H' : db ?q = Ok _ |- _ =>
             rewrite H in H'; injection H' as <-
         end.
  reflexivity.
Qed.

(** ** The next link *)

Lemma dict_get_set_same {V : Type} (k : string) (v : V) (d : dict V) :
  dict_get k (dict_set k v d) = Some v.
Proof.
  induction d as [|[k' v'] rest IH]; simpl.
  - now rewrite String.eqb_refl.
  - destruct (String.eqb k' k) eqn:E; simpl; now rewrite E.
Qed.

Lemma dict_get_set_other {V : Type} (k k' : string) (v : V) (d : dict V) :
  k' <> k -> dict_get k' (dict_set k v d) = dict_get k' d.
Proof.
  intros Hne. induction d as [|[k0 v0] rest IH]; simpl.
  - destruct (String.eqb_spec k k'); [congruence|reflexivity].
  - destruct (String.eqb_spec k0 k) as [->|Hk]; simpl.
    + destruct (String.eqb_spec k k'); [congruence|reflexivity].
    + now rewrite IH.
Qed.

Lemma dict_get_fold_set {V : Type} (k : string) (items acc : list (string * V)) :
  dict_get k (fold_left (fun d kv => dict_set (fst kv) (snd kv) d) items acc)
    = match last_value k items with
      | Some v => Some v
      | None => dict_get k acc
      end.
Proof.
  revert acc. induction items as [|[k' v] rest IH]; intros acc; simpl; [reflexivity|].
  rewrite IH. destruct (last_value k rest); [reflexivity|].
  destruct (String.eqb_spec k' k) as [->|Hne].
  - apply dict_get_set_same.
  - apply dict_get_set_other. congruence.
Qed.

Lemma last_value_as_text (k : string) (params : list (string * string)) :
  last_value k (map (fun kv => (fst kv, SStr (snd kv))) params)
    = option_map SStr (last_value k params).
Proof.
  induction params as [|[k' v] rest IH]; simpl; [reflexivity|].
  rewrite IH. destruct (last_value k rest); simpl; [reflexivity|].
  destruct (String.eqb k' k); reflexivity.
Qed.

Lemma other_than_page_set {V : Type} (v : V) (d : dict V) :
  other_than_page (dict_set "page" v d) = other_than_page d.
Proof.
  induction d as [|[k' v'] rest IH]; simpl; [reflexivity|].
  destruct (String.eqb k' "page") eqn:E; simpl; rewrite E; simpl; [reflexivity|].
  now rewrite IH.
Qed.

Lemma other_than_page_as_text (params : list (string * string)) :
  other_than_page (map (fun kv => (fst kv, SStr (snd kv))) params)
    = map as_text (other_than_page params).
Proof.
  induction params as [|[k v] rest IH]; simpl; [reflexivity|].
  destruct (String.eqb k "page"); simpl; now rewrite IH.
Qed.

Lemma url_of_route (r : Resource) :
  API_V1_PREFIX ++ "/" ++ table_of r = API_V1_PREFIX ++ route_of r.
Proof.
  destruct r; reflexivity.
Qed.

(** When a next page exists, a list handler that returns has put the next
    link of its route into the response. *)
Lemma next_link_is_set (r : Resource) (page page_size : option Z)
    (start_date end_date : option string) (response0 : Response) (request : Request)
    (db : DB) (total : Z) (log log' : list string) (response' : option Response)
    (page_rows : list (record_of r)) :
  total_count db (table_of r) (where_clause_of r start_date end_date) = Ok (SInt total) ->
  (arg page 1 - 1) * arg page_size DEFAULT_PAGE_SIZE + arg page_size DEFAULT_PAGE_SIZE < total ->
  list_handler r page page_size start_date end_date (Some response0) (Some request) db log
    = (log', Ok (response', page_rows)) ->
  exists response1,
    response' = Some response1
    /\ get_header "Link" response1
         = Some (next_link (API_V1_PREFIX ++ route_of r) (next_params request (arg page 1))).
Proof.
  intros Hcount Hnext Hrun.
  apply list_handler_inv in Hrun. destruct Hrun as (log1 & rows0 & extra & Hrun & _ & _).
  apply paged_response_inv in Hrun.
  destruct Hrun as (count & qp & has_next & cursor & Hc & Hqp & Hlt & _ & Hresp & _ & _).
  rewrite Hcount in Hc. injection Hc as <-. simpl in Hlt. injection Hlt as <-.
  simpl in Hqp. injection Hqp as <-.
  apply Z.ltb_lt in Hnext. rewrite Hnext in Hresp. simpl in Hresp. subst response'.
  eexists. split; [reflexivity|].
  unfold get_header, set_header. simpl. rewrite get_header_set_header.
  change (String "/" (table_of r)) with ("/" ++ table_of r). rewrite url_of_route.
  reflexivity.
Qed.

(** C6 (as amended): when a next page exists, the Link header a list
    handler sets is one value, the prefix and the route of the resource, a
    question mark, the url-encoded parameters of the next page, in angle
    brackets and followed by rel="next".  Those parameters are the request's
    as a mapping with page set to page + 1: every name other than page keeps
    the value the request gives it last, and when no name occurs twice in the
    request the parameters other than page are the request's, in its order
    and unchanged.  (A name the request repeats is carried once.) *)
Theorem next_link_keeps_request_params :
  forall (r : Resource) (page page_size : option Z) (start_date end_date : option string)
         (response0 : Response) (request : Request) (db : DB) (total : Z)
         (log log' : list string) (response' : option Response)
         (page_rows : list (record_of r)),
    total_count db (table_of r) (where_clause_of r start_date end_date) = Ok (SInt total) ->
    (arg page 1 - 1) * arg page_size DEFAULT_PAGE_SIZE + arg page_size DEFAULT_PAGE_SIZE
      < total ->
    list_handler r page page_size start_date end_date (Some response0) (Some request) db log
      = (log', Ok (response', page_rows)) ->
    let sent := next_params request (arg page 1) in
    exists response1,
      response' = Some response1
      /\ get_header "Link" response1
           = Some ("<" ++ API_V1_PREFIX ++ route_of r ++ "?" ++ urlencode sent
                     ++ ">; rel=" ++ dquote ++ "next" ++ dquote)
      /\ dict_get "page" sent = Some (SInt (arg page 1 + 1))
      /\ (forall name, name <> "page" ->
            dict_get name sent = option_map SStr (last_value name (query_params request)))
      /\ (NoDup (map fst (query_params request)) ->
          other_than_page sent = map as_text (other_than_page (query_params request))).
Proof.
  intros r page page_size start_date end_date response0 request db total log log'
    response' page_rows Hcount Hnext Hrun sent.
  destruct (next_link_is_set _ _ _ _ _ _ _ _ _ _ _ _ _ Hcount Hnext Hrun)
    as (response1 & -> & Hlink).
  exists response1. split; [reflexivity|]. split; [|split; [|split]].
  - rewrite Hlink. unfold next_link. fold sent. now rewrite append_assoc.
  - apply dict_get_set_same.
  - intros name Hne. unfold sent, next_params, original_params, dict_of_items.
    rewrite dict_get_set_other by exact Hne.
    rewrite dict_get_fold_set, last_value_as_text. simpl.
    destruct (last_value name (query_params request)); reflexivity.
  - intros Hnd. unfold sent, next_params, original_params.
    rewrite other_than_page_set, dict_of_items_nodup.
    + apply other_than_page_as_text.
    + rewrite map_map. simpl. exact Hnd.
Qed.

Lemma join_snoc (sep : string) (parts : list string) (last : string) :
  join sep (parts ++ [last])
    = match parts with
      | [] => last
      | _ :: _ => join sep parts ++ sep ++ last
      end.
Proof.
  induction parts as [|a rest IH]; [reflexivity|].
  destruct rest as [|b rest']; [reflexivity|].
  change (join sep ((a :: b :: rest') ++ [last])%list)
    with (a ++ sep ++ join sep ((b :: rest') ++ [last])%list).
  rewrite IH.
  change (join sep (a :: b :: rest')) with (a ++ sep ++ join sep (b :: rest')).
  now rewrite !append_assoc.
Qed.

Lemma quote_plus_str_int (n : Z) : quote_plus (str_int n) = str_int n.
Proof.
  assert (Hu : forall d, quote_plus (NilEmpty.string_of_uint d) = NilEmpty.string_of_uint d).
  { induction d; simpl; try rewrite IHd; reflexivity. }
  assert (Hz : forall d, quote_plus (NilZero.string_of_uint d) = NilZero.string_of_uint d).
  { intros d. destruct d; try apply Hu. reflexivity. }
  unfold str_int, NilZero.string_of_int. destruct (Z.to_int n) as [d|d].
  - apply Hz.
  - change (quote_plus (String "-" (NilZero.string_of_uint d)))
      with (String "-" (quote_plus (NilZero.string_of_uint d))).
    now rewrite Hz.
Qed.

(** The query string of a mapping to which page is added last. *)
Lemma urlencode_page_last (params : dict Scalar) (n : Z) :
  urlencode (params ++ [("page", SInt n)])%list
    = match params with
      | [] => ""
      | _ :: _ => urlencode params ++ "&"
      end ++ "page=" ++ str_int n.
Proof.
  unfold urlencode. rewrite map_app. simpl map at 2. rewrite join_snoc.
  cbn [fst snd py_str]. rewrite quote_plus_str_int.
  change (quote_plus "page") with "page".
  destruct params; simpl; [reflexivity|]. now rewrite (append_assoc _ "&").
Qed.

(** C9: when a next page exists and the request names no page parameter,
    the parameters of the next link are the request's followed by an explicit
    page parameter equal to page + 1, so the query string of the Link header
    ends in page= and that number; with the page argument left at its default
    of 1 it ends in page=2. *)
Theorem next_link_adds_page_param :
  forall (r : Resource) (page page_size : option Z) (start_date end_date : option string)
         (response0 : Response) (request : Request) (db : DB) (total : Z)
         (log log' : list string) (response' : option Response)
         (page_rows : list (record_of r)),
    ~ In "page" (map fst (query_params request)) ->
    total_count db (table_of r) (where_clause_of r start_date end_date) = Ok (SInt total) ->
    (arg page 1 - 1) * arg page_size DEFAULT_PAGE_SIZE + arg page_size DEFAULT_PAGE_SIZE
      < total ->
    list_handler r page page_size start_date end_date (Some response0) (Some request) db log
      = (log', Ok (response', page_rows)) ->
    let original := original_params request in
    let query_string :=
      match original with
      | [] => ""
      | _ :: _ => urlencode original ++ "&"
      end ++ "page=" ++ str_int (arg page 1 + 1) in
    exists response1,
      response' = Some response1
      /\ next_params request (arg page 1)
           = (original ++ [("page", SInt (arg page 1 + 1))])%list
      /\ get_header "Link" response1
           = Some ("<" ++ API_V1_PREFIX ++ route_of r ++ "?" ++ query_string
                     ++ ">; rel=" ++ dquote ++ "next" ++ dquote)
      /\ (page = None -> str_int (arg page 1 + 1) = "2").
Proof.
  intros r page page_size start_date end_date response0 request db total log log'
    response' page_rows Hnopage Hcount Hnext Hrun original query_string.
  destruct (next_link_is_set _ _ _ _ _ _ _ _ _ _ _ _ _ Hcount Hnext Hrun)
    as (response1 & -> & Hlink).
  assert (Hsent : next_params request (arg page 1)
                  = (original ++ [("page", SInt (arg page 1 + 1))])%list).
  { unfold next_params. apply dict_set_fresh.
    unfold original, original_params, dict_of_items.
    rewrite dict_get_fold_set, last_value_as_text.
    simpl. replace (last_value "page" (query_params request)) with (@None string);
      [reflexivity|].
    clear -Hnopage. induction (query_params request) as [|[k v] rest IH]; [reflexivity|].
    simpl in *. rewrite <- IH by tauto.
    destruct (String.eqb_spec k "page"); [exfalso; apply Hnopage; now left|reflexivity]. }
  exists response1. split; [reflexivity|]. split; [exact Hsent|]. split.
  - rewrite Hlink, Hsent. unfold next_link. rewrite urlencode_page_last.
    fold original. fold query_string. now rewrite append_assoc.
  - intros ->. reflexivity.
Qed.

(** ** Beyond the claims: failures and what a page depends on *)

Lemma paged_response_full (db : DB) (request : Request) (table_name : string) (page : Z)
    (response : option Response) (where_clause sort_by : string) (page_size : Z)
    (log : list string) :
  _get_paged_response db (Some request) table_name page response where_clause sort_by
    page_size log
  = match total_count db table_name where_clause with
    | Err e => ((log ++ [count_statement table_name where_clause])%list, Err e)
    | Ok count =>
        match py_lt_int ((page - 1) * page_size + page_size) count with
        | Err e => ((log ++ [count_statement table_name where_clause])%list, Err e)
        | Ok has_next =>
            ((log ++ [count_statement table_name where_clause;
                      page_statement table_name where_clause sort_by page_size
                        ((page - 1) * page_size)])%list,
             match db (page_statement table_name where_clause sort_by page_size
                         ((page - 1) * page_size)) with
             | Ok cursor =>
                 Ok (response_after (API_V1_PREFIX ++ "/" ++ table_name)
                       (original_params request) page has_next response,
                     map (to_dict (description cursor)) (rows cursor))
             | Err e => Err e
             end)
        end
    end.
Proof.
  unfold _get_paged_response, total_count, bind, sql, lift, ret.
  destruct (db (count_statement table_name where_clause)) as [ccur|e]; [|reflexivity].
  destruct (subscript0 (fetchone ccur)) as [count|e]; [|reflexivity].
  simpl query_params_dict. cbv iota beta.
  destruct (py_lt_int ((page - 1) * page_size + page_size) count) as [has_next|e];
    [|reflexivity].
  rewrite list_response_run, <- app_assoc. simpl.
  destruct (db (page_statement table_name where_clause sort_by page_size
                  ((page - 1) * page_size))) as [cursor|e]; [|reflexivity].
  destruct has_next, response; reflexivity.
Qed.

Lemma paged_count_fails (db : DB) (request : option Request) (table_name : string)
    (page : Z) (response : option Response) (where_clause sort_by : string)
    (page_size : Z) (log : list string) (e : Exception) :
  db (count_statement table_name where_clause) = Err e ->
  _get_paged_response db request table_name page response where_clause sort_by page_size log
    = ((log ++ [count_statement table_name where_clause])%list, Err e).
Proof.
  intros H. unfold _get_paged_response, bind, sql. now rewrite H.
Qed.

(** X1: when the engine raises on the count statement, each of the six list
    handlers raises that same exception having sent the count statement
    only: the data statement is never sent and no order is enriched. *)
Theorem list_handler_stops_at_failed_count :
  forall (r : Resource) (page page_size : option Z) (start_date end_date : option string)
         (response : option Response) (request : option Request) (db : DB)
         (e : Exception) (log : list string),
    db (count_statement (table_of r) (where_clause_of r start_date end_date)) = Err e ->
    list_handler r page page_size start_date end_date response request db log
      = ((log ++ [count_statement (table_of r) (where_clause_of r start_date end_date)])%list,
         Err e).
Proof.
  intros r page page_size start_date end_date response request db e log H.
  destruct r; simpl in *;
    unfold get_customers, get_orders, get_items, get_products, get_stores, get_supplies;
    try (apply paged_count_fails; exact H).
  unfold bind. now rewrite (paged_count_fails _ _ _ _ _ _ _ _ _ _ H).
Qed.



(** ** Beyond the claims: the headers of the response *)

Lemma remove_header_replace_header (k v : string) (l : list (string * string)) :
  remove_header k (replace_header k v l) = remove_header k l.
Proof.
  induction l as [|[k' v'] rest IH]; simpl.
  - now rewrite String.eqb_refl.
  - destruct (String.eqb k' k) eqn:E; simpl.
    + rewrite String.eqb_refl.
      clear IH. induction rest as [|[k2 v2] rest IH]; simpl; [reflexivity|].
      destruct (String.eqb k2 k) eqn:E2; simpl; [exact IH|]. now rewrite E2, IH.
    + now rewrite E, IH.
Qed.

Lemma count_header_remove_header (k : string) (l : list (string * string)) :
  count_header k (remove_header k l) = 0%nat.
Proof.
  unfold count_header. induction l as [|[k' v'] rest IH]; simpl; [reflexivity|].
  destruct (String.eqb k' k) eqn:E; simpl; [exact IH|]. now rewrite E.
Qed.

Lemma count_header_replace_header (k v : string) (l : list (string * string)) :
  count_header k (replace_header k v l) = 1%nat.
Proof.
  induction l as [|[k' v'] rest IH]; simpl.
  - unfold count_header. simpl. now rewrite String.eqb_refl.
  - destruct (String.eqb k' k) eqn:E.
    + unfold count_header. simpl. rewrite String.eqb_refl. simpl.
      f_equal. apply count_header_remove_header.
    + unfold count_header in *. simpl. now rewrite E.
Qed.

(** X4: a list handler that returns touches no header but the one named
    link in the raw header list (where Starlette keeps the Link header): the
    raw headers of any other name are the same list as before, in the same
    order, and the response is either left exactly as it was or holds
    exactly one link header, however many it held before. *)
Theorem list_handler_touches_only_the_link_header :
  forall (r : Resource) (page page_size : option Z) (start_date end_date : option string)
         (response0 : Response) (request : option Request) (db : DB)
         (log log' : list string) (response' : option Response)
         (page_rows : list (record_of r)),
    list_handler r page page_size start_date end_date (Some response0) request db log
      = (log', Ok (response', page_rows)) ->
    exists response1,
      response' = Some response1
      /\ remove_header "link" (headers response1) = remove_header "link" (headers response0)
      /\ (response1 = response0 \/ count_header "link" (headers response1) = 1%nat).
Proof.
  intros r page page_size start_date end_date response0 request db log log' response'
    page_rows Hrun.
  apply list_handler_inv in Hrun. destruct Hrun as (log1 & rows0 & extra & Hrun & _ & _).
  apply paged_response_inv in Hrun.
  destruct Hrun as (count & qp & has_next & cursor & _ & _ & _ & _ & -> & _ & _).
  unfold response_after. destruct has_next.
  - eexists. split; [reflexivity|]. unfold set_header. simpl. split.
    + apply remove_header_replace_header.
    + right. apply count_header_replace_header.
  - exists response0. repeat split. now left.
Qed.

(** ** Beyond the claims: pages as slices *)

Lemma slice_nonempty_iff (columns : list string) (matching : list (list Scalar))
    (page_size offset : Z) :
  0 < page_size -> 0 <= offset ->
  (slice columns matching page_size offset <> []
   <-> offset < Z.of_nat (List.length matching)).
Proof.
  intros Hsize Hoff. unfold slice.
  destruct (Z_lt_ge_dec offset (Z.of_nat (List.length matching))) as [Hlt|Hge].
  - split; [auto|]. intros _ Hnil.
    apply map_eq_nil in Hnil.
    assert (Hlen : List.length (firstn (Z.to_nat page_size)
                                  (skipn (Z.to_nat offset) matching)) = 0%nat)
      by now rewrite Hnil.
    rewrite length_firstn, length_skipn in Hlen. lia.
  - split; [|lia]. intros Hne. exfalso. apply Hne.
    rewrite skipn_all2 by lia. now rewrite firstn_nil.
Qed.

(** X5: with the engine cutting pages out of the rows [matching] and the
    count statement yielding their number, for a page number of at least 1
    and a positive page size the pagination engine returns page [page] with
    a Link header exactly when page [page + 1] comes back with at least one
    row: a next link never leads to an empty page and its absence means
    there is nothing more. *)
Theorem link_iff_next_page_has_rows :
  forall (db : DB) (request : Request) (table_name where_clause sort_by : string)
         (page page_size : Z) (response0 : Response) (columns : list string)
         (matching : list (list Scalar)) (log : list string),
    1 <= page ->
    0 < page_size ->
    get_header "Link" response0 = None ->
    total_count db table_name where_clause = Ok (SInt (Z.of_nat (List.length matching))) ->
    serves_slice db
      (page_statement table_name where_clause sort_by page_size ((page - 1) * page_size))
      columns matching page_size ((page - 1) * page_size) ->
    serves_slice db
      (page_statement table_name where_clause sort_by page_size ((page + 1 - 1) * page_size))
      columns matching page_size ((page + 1 - 1) * page_size) ->
    exists (response1 : Response) (next_rows : list Row),
      returned_rows
        (_get_paged_response db (Some request) table_name (page + 1) (Some response0)
           where_clause sort_by page_size log) = Ok next_rows
      /\ snd (_get_paged_response db (Some request) table_name page (Some response0)
               where_clause sort_by page_size log)
         = Ok (Some response1, slice columns matching page_size ((page - 1) * page_size))
      /\ (get_header "Link" response1 <> None <-> next_rows <> []).
Proof.
  intros db request table_name where_clause sort_by page page_size response0 columns
    matching log Hpage Hsize Hfresh Hcount Hthis Hnext.
  unfold returned_rows. rewrite !paged_response_full, Hcount. simpl py_lt_int.
  cbv iota beta. unfold serves_slice in Hthis, Hnext. rewrite Hthis, Hnext.
  cbn [snd description rows].
  fold (slice columns matching page_size ((page + 1 - 1) * page_size)).
  fold (slice columns matching page_size ((page - 1) * page_size)).
  unfold response_after.
  destruct (Z.ltb_spec ((page - 1) * page_size + page_size)
              (Z.of_nat (List.length matching))) as [Hlt|Hge].
  - eexists. eexists. split; [reflexivity|]. split; [reflexivity|].
    rewrite slice_nonempty_iff by nia.
    unfold get_header, set_header. simpl. rewrite get_header_set_header.
    split; [intros _; nia|discriminate].
  - exists response0. eexists. split; [reflexivity|]. split; [reflexivity|].
    rewrite slice_nonempty_iff by nia.
    rewrite Hfresh. split; [congruence|nia].
Qed.

Lemma firstn_plus {A : Type} (a b : nat) (l : list A) :
  firstn (a + b) l = (firstn a l ++ firstn b (skipn a l))%list.
Proof.
  revert l. induction a as [|a IH]; intros l; simpl; [reflexivity|].
  destruct l as [|x l]; simpl.
  - now rewrite firstn_nil.
  - now rewrite IH.
Qed.

Lemma slices_concatenate (columns : list string) (matching : list (list Scalar))
    (page_size : Z) (k : nat) :
  0 < page_size ->
  List.concat (map (fun p => slice columns matching page_size ((Z.of_nat p - 1) * page_size))
                 (seq 1 k))
    = map (to_dict columns) (firstn (k * Z.to_nat page_size) matching).
Proof.
  intros Hsize. induction k as [|k IH]; [reflexivity|].
  rewrite seq_S, map_app, concat_app, IH. cbn [map List.concat]. rewrite app_nil_r.
  unfold slice. rewrite <- map_app. f_equal.
  replace (Z.of_nat (1 + k) - 1) with (Z.of_nat k) by lia.
  rewrite Z2Nat.inj_mul, Nat2Z.id by lia.
  replace (S k * Z.to_nat page_size)%nat with (k * Z.to_nat page_size + Z.to_nat page_size)%nat
    by lia.
  now rewrite firstn_plus.
Qed.

(** X6: with the engine cutting pages out of the rows [matching] and a
    positive page size, the pagination engine returns each of the pages 1 to
    k, and these pages put one after another are the first k * page_size
    rows of [matching]: consecutive pages neither overlap nor skip a row,
    and once k * page_size reaches the number of rows they are all of the
    rows, each once and in the engine's order. *)
Theorem first_pages_are_the_first_rows :
  forall (db : DB) (request : Request) (response : option Response)
         (table_name where_clause sort_by : string) (page_size : Z)
         (columns : list string) (matching : list (list Scalar)) (k : nat)
         (log : list string),
    0 < page_size ->
    total_count db table_name where_clause = Ok (SInt (Z.of_nat (List.length matching))) ->
    (forall p, (1 <= p <= k)%nat ->
       serves_slice db
         (page_statement table_name where_clause sort_by page_size
            ((Z.of_nat p - 1) * page_size))
         columns matching page_size ((Z.of_nat p - 1) * page_size)) ->
    exists pages : list (list Row),
      Forall2 (fun p page_rows =>
                 returned_rows
                   (_get_paged_response db (Some request) table_name (Z.of_nat p) response
                      where_clause sort_by page_size log) = Ok page_rows)
        (seq 1 k) pages
      /\ List.concat pages
           = map (to_dict columns) (firstn (k * Z.to_nat page_size) matching)
      /\ ((List.length matching <= k * Z.to_nat page_size)%nat ->
          List.concat pages = map (to_dict columns) matching).
Proof.
  intros db request response table_name where_clause sort_by page_size columns matching k
    log Hsize Hcount Hserve.
  exists (map (fun p => slice columns matching page_size ((Z.of_nat p - 1) * page_size))
            (seq 1 k)).
  split; [|split].
  - assert (Hin : forall p, In p (seq 1 k) -> (1 <= p <= k)%nat)
      by (intros p Hp; apply in_seq in Hp; lia).
    revert Hin. generalize (seq 1 k) as ps.
    induction ps as [|p ps IH]; intros Hin; simpl; constructor.
    + unfold returned_rows. rewrite paged_response_full, Hcount. simpl py_lt_int.
      cbv iota beta. rewrite (Hserve p (Hin p (or_introl eq_refl))). reflexivity.
    + apply IH. intros q Hq. apply Hin. now right.
  - now apply slices_concatenate.
  - intros Hall. rewrite slices_concatenate by exact Hsize.
    now rewrite firstn_all2.
Qed.

(** ** Beyond the claims: what enrichment sends and keeps *)

(** The statements enrichment has sent when it returns: the items statement
    of each order's id, in the order of the list. *)
Lemma enrich_orders_statements (db : DB) (orders : list Row) :
  forall (log log' : list string) (enriched : list Order),
    _enrich_orders db orders log = (log', Ok enriched) ->
    exists statements,
      log' = (log ++ statements)%list
      /\ Forall2 (fun order statement =>
                    exists id, dict_get "id" order = Some id
                               /\ statement = items_statement id)
           orders statements
      /\ Forall2 (fun order record =>
                    exists id, dict_get "id" order = Some id
                               /\ record = dict_set "items" (ItemList (items_found db id))
                                             (as_order order))
           orders enriched.
Proof.
  induction orders as [|order rest IH]; intros log log' enriched; simpl.
  - unfold ret. intros H. injection H as <- <-.
    exists []. rewrite app_nil_r. repeat split; constructor.
  - unfold bind at 1, lift, getitem.
    destruct (dict_get "id" order) as [id|] eqn:Hid; [|discriminate].
    unfold bind at 1. rewrite list_response_run.
    destruct (db (items_statement id)) as [cursor|e] eqn:Hdb; [|discriminate].
    unfold bind at 1.
    destruct (_enrich_orders db rest (log ++ [items_statement id])%list)
      as [log1 [rest'|e]] eqn:E; [|discriminate].
    unfold ret. intros H. injection H as <- <-.
    destruct (IH _ _ _ E) as (statements & -> & Hst & Hrec).
    exists (items_statement id :: statements). rewrite <- app_assoc. split; [reflexivity|].
    split; constructor; try assumption; exists id; (split; [exact Hid|]);
      [reflexivity|unfold items_found; rewrite Hdb; reflexivity].
Qed.

(** X7: when the orders handler returns, it has sent the count statement,
    the data statement and then one items statement for every order of the
    page, in page order, and nothing else: 2 + n statements for a page of n
    orders. *)
Theorem get_orders_sends_one_items_statement_per_order :
  forall (page page_size : option Z) (start_date end_date : option string)
         (response : option Response) (request : option Request) (db : DB)
         (log log' : list string) (response' : option Response) (enriched : list Order),
    get_orders page page_size start_date end_date response request db log
      = (log', Ok (response', enriched)) ->
    let where_clause := orders_where_clause start_date end_date in
    let size := arg page_size DEFAULT_PAGE_SIZE in
    exists statements,
      log' = (log ++ [count_statement "orders" where_clause;
                      page_statement "orders" where_clause "" size ((arg page 1 - 1) * size)]
                  ++ statements)%list
      /\ List.length statements = List.length enriched
      /\ Forall2 (fun statement record =>
                    exists id, dict_get "id" record = Some (Scal id)
                               /\ statement = items_statement id)
           statements enriched.
Proof.
  intros page page_size start_date end_date response request db log log' response'
    enriched Hrun where_clause size.
  unfold get_orders, bind in Hrun. fold where_clause size in Hrun.
  destruct (_get_paged_response db request "orders" (arg page 1) response where_clause ""
              size log) as [log1 [[resp0 orders0]|e]] eqn:Hpaged; [|discriminate].
  destruct (_enrich_orders db orders0 log1) as [log2 [enriched0|e]] eqn:E; [|discriminate].
  unfold ret in Hrun. injection Hrun as <- <- <-.
  apply paged_response_inv in Hpaged.
  destruct Hpaged as (_ & _ & _ & _ & _ & _ & _ & _ & _ & _ & ->).
  destruct (enrich_orders_statements _ _ _ _ _ E) as (statements & -> & Hst & Hrec).
  exists statements. rewrite <- app_assoc. split; [reflexivity|].
  clear E. revert statements enriched0 Hst Hrec.
  induction orders0 as [|order rest IH]; intros statements enriched0 Hst Hrec;
    inversion Hst; subst; inversion Hrec; subst; [split; [reflexivity|constructor]|].
  destruct (IH _ _ H3 H5) as [Hlen Hall]. split; [simpl; now rewrite Hlen|].
  constructor; [|exact Hall].
  destruct H1 as (id & Hid & ->). destruct H2 as (id' & Hid' & ->).
  rewrite Hid in Hid'. injection Hid' as <-. exists id. split; [|reflexivity].
  destruct (dict_get "items" (as_order order)) eqn:Hitems.
  - rewrite dict_get_set_other by discriminate.
    rewrite dict_get_as_order, Hid. reflexivity.
  - rewrite dict_get_set_other by discriminate.
    rewrite dict_get_as_order, Hid. reflexivity.
Qed.

Lemma keys_as_order (order : Row) : keys (as_order order) = keys order.
Proof.
  unfold keys, as_order. rewrite map_map. reflexivity.
Qed.

Lemma keys_dict_set {V : Type} (k : string) (v : V) (d : dict V) :
  keys (dict_set k v d)
    = match dict_get k d with
      | Some _ => keys d
      | None => (keys d ++ [k])%list
      end.
Proof.
  induction d as [|[k' v'] rest IH]; simpl; [reflexivity|].
  destruct (String.eqb k' k); simpl; [reflexivity|].
  rewrite IH. destruct (dict_get k rest); reflexivity.
Qed.

(** X8: in every list enrichment returns, each record is its order with all
    fields other than items unchanged and an items field holding the item
    list the engine gave for the order's id; an order that already had an
    items field keeps its field names as they were (the field is replaced
    where it stands), any other order has items added as its last field. *)
Theorem enriched_order_keeps_the_other_fields :
  forall (db : DB) (orders : list Row) (log log' : list string) (enriched : list Order),
    _enrich_orders db orders log = (log', Ok enriched) ->
    Forall2 (fun order record =>
               (forall name, name <> "items" ->
                  dict_get name record = option_map Scal (dict_get name order))
               /\ (exists id, dict_get "id" order = Some id
                              /\ dict_get "items" record
                                   = Some (ItemList (items_found db id)))
               /\ keys record = match dict_get "items" order with
                                | Some _ => keys order
                                | None => (keys order ++ ["items"])%list
                                end)
      orders enriched.
Proof.
  intros db orders log log' enriched Hrun.
  destruct (enrich_orders_statements _ _ _ _ _ Hrun) as (statements & _ & _ & Hrec).
  clear Hrun. induction Hrec as [|order record rest rest' (id & Hid & ->) _ IH];
    constructor; [|exact IH].
  split; [|split].
  - intros name Hne. rewrite dict_get_set_other by exact Hne. apply dict_get_as_order.
  - exists id. split; [exact Hid|apply dict_get_set_same].
  - rewrite keys_dict_set, dict_get_as_order, keys_as_order.
    destruct (dict_get "items" order); reflexivity.
Qed.

(** One step of the enrichment loop. *)
Lemma enrich_orders_cons (db : DB) (order : Row) (rest : list Row) (log : list string) :
  _enrich_orders db (order :: rest) log
    = match dict_get "id" order with
      | None => (log, Err (KeyError "id"))
      | Some id =>
          match db (items_statement id) with
          | Err e => ((log ++ [items_statement id])%list, Err e)
          | Ok cursor =>
              match _enrich_orders db rest (log ++ [items_statement id])%list with
              | (log', Ok rest') =>
                  (log',
                   Ok (dict_set "items"
                         (ItemList (map (to_dict (description cursor)) (rows cursor)))
                         (as_order order) :: rest'))
              | (log', Err e) => (log', Err e)
              end
          end
      end.
Proof.
  simpl. unfold bind at 1, lift, getitem.
  destruct (dict_get "id" order) as [id|]; [|reflexivity].
  unfold bind at 1. rewrite list_response_run.
  destruct (db (items_statement id)) as [cursor|e]; [|reflexivity].
  unfold bind, ret.
  destruct (_enrich_orders db rest (log ++ [items_statement id])%list) as [log' [rest'|e]];
    reflexivity.
Qed.

(** Enrichment of orders the engine answers for returns. *)
Lemma enrich_orders_answered (db : DB) (orders : list Row) :
  Forall (items_answered db) orders ->
  forall log, exists statements enriched,
    List.length statements = List.length orders
    /\ _enrich_orders db orders log = ((log ++ statements)%list, Ok enriched).
Proof.
  induction 1 as [|order rest Hhead _ IH]; intros log.
  - exists [], []. simpl. unfold ret. now rewrite app_nil_r.
  - unfold items_answered in Hhead.
    destruct (dict_get "id" order) as [id|] eqn:Hid; [|contradiction].
    destruct (db (items_statement id)) as [cursor|e] eqn:Hdb; [|contradiction].
    destruct (IH (log ++ [items_statement id])%list) as (statements & enriched & Hlen & Hrun).
    exists (items_statement id :: statements). eexists. split; [simpl; now rewrite Hlen|].
    rewrite enrich_orders_cons, Hid, Hdb, Hrun, <- app_assoc. reflexivity.
Qed.

Lemma enrich_orders_app (db : DB) (before after : list Row) (log : list string) :
  _enrich_orders db (before ++ after)%list log
    = match _enrich_orders db before log with
      | (log1, Ok done) =>
          match _enrich_orders db after log1 with
          | (log2, Ok rest) => (log2, Ok (done ++ rest)%list)
          | (log2, Err e) => (log2, Err e)
          end
      | (log1, Err e) => (log1, Err e)
      end.
Proof.
  revert log. induction before as [|order rest IH]; intros log.
  - simpl. unfold ret. destruct (_enrich_orders db after log) as [log2 [l|e]]; reflexivity.
  - change ((order :: rest) ++ after)%list with (order :: (rest ++ after))%list.
    rewrite !enrich_orders_cons.
    destruct (dict_get "id" order) as [id|]; [|reflexivity].
    destruct (db (items_statement id)) as [cursor|e]; [|reflexivity].
    rewrite IH.
    destruct (_enrich_orders db rest (log ++ [items_statement id])%list)
      as [log1 [done|e]]; [|reflexivity].
    destruct (_enrich_orders db after log1) as [log2 [l|e]]; reflexivity.
Qed.

(** X9: when an order of the list has no id field, enrichment raises
    KeyError for id: it has sent one items statement for each order before
    that one and none after, and it returns no list, not even the orders
    already enriched. *)
Theorem enrich_orders_raises_on_missing_id :
  forall (db : DB) (before : list Row) (bad : Row) (after : list Row) (log : list string),
    Forall (items_answered db) before ->
    dict_get "id" bad = None ->
    exists statements,
      List.length statements = List.length before
      /\ _enrich_orders db (before ++ bad :: after)%list log
           = ((log ++ statements)%list, Err (KeyError "id")).
Proof.
  intros db before bad after log Hbefore Hbad.
  destruct (enrich_orders_answered _ _ Hbefore log) as (statements & enriched & Hlen & Hrun).
  exists statements. split; [exact Hlen|].
  now rewrite enrich_orders_app, Hrun, enrich_orders_cons, Hbad.
Qed.

(** X10: when the engine raises on the items statement of an order,
    enrichment raises that same exception: it has sent the items statements
    of the orders before and the failing one, none after, and it returns no
    list. *)
Theorem enrich_orders_raises_what_the_engine_raises :
  forall (db : DB) (before : list Row) (bad : Row) (after : list Row) (id : Scalar)
         (e : Exception) (log : list string),
    Forall (items_answered db) before ->
    dict_get "id" bad = Some id ->
    db (items_statement id) = Err e ->
    exists statements,
      List.length statements = List.length before
      /\ _enrich_orders db (before ++ bad :: after)%list log
           = ((log ++ statements ++ [items_statement id])%list, Err e).
Proof.
  intros db before bad after id e log Hbefore Hid Hdb.
  destruct (enrich_orders_answered _ _ Hbefore log) as (statements & enriched & Hlen & Hrun).
  exists statements. split; [exact Hlen|].
  now rewrite enrich_orders_app, Hrun, enrich_orders_cons, Hid, Hdb, <- app_assoc.
Qed.

(** ** Beyond the claims: the single-record handlers *)

(** X11: single mode is the head of list mode: on the same statement the
    two send the same text, and single mode returns the first mapping list
    mode returns, raises TypeError where list mode returns the empty list,
    and raises what list mode raises. *)
Theorem single_response_is_head_of_list_response :
  forall (db : DB) (query : string) (log : list string),
    fst (_get_single_response db query log) = fst (_get_list_response db query log)
    /\ snd (_get_single_response db query log)
         = match snd (_get_list_response db query log) with
           | Ok [] => Err TypeError
           | Ok (first :: _) => Ok first
           | Err e => Err e
           end.
Proof.
  intros db query log. rewrite single_response_run, list_response_run. simpl.
  split; [reflexivity|]. destruct (db query) as [cursor|e]; [|reflexivity].
  destruct (rows cursor); reflexivity.
Qed.

(** X12: the order handler looks the items up by the id it finds in the row
    the engine returned, not by the identifier of the path: with a first row
    whose id field is [id] and an answer to the items statement of [id], it
    sends the lookup statement and then that items statement and returns the
    row with the answer's rows under items. *)
Theorem get_order_takes_items_of_the_row_id :
  forall (order_id : string) (db : DB) (columns : list string) (first : list Scalar)
         (others : list (list Scalar)) (id : Scalar) (cursor : Cursor) (log : list string),
    db (lookup_statement Orders order_id)
      = Ok {| description := columns; rows := first :: others |} ->
    dict_get "id" (to_dict columns first) = Some id ->
    db (items_statement id) = Ok cursor ->
    get_order order_id db log
      = ((log ++ [lookup_statement Orders order_id; items_statement id])%list,
         Ok (dict_set "items" (ItemList (map (to_dict (description cursor)) (rows cursor)))
               (as_order (to_dict columns first)))).
Proof.
  intros order_id db columns first others id cursor log Hlookup Hid Hitems.
  unfold get_order, bind at 1.
  change ("SELECT * FROM orders WHERE id = '" ++ order_id ++ "'")
    with (lookup_statement Orders order_id).
  rewrite single_response_run, Hlookup. cbn [rows description].
  fold (to_dict columns first). cbv iota beta. unfold bind at 1.
  rewrite enrich_orders_cons, Hid, Hitems. simpl _enrich_orders. unfold ret.
  now rewrite <- app_assoc.
Qed.

(** ** Beyond the claims: the text of the next link *)

Lemma all_chars_app (p : ascii -> bool) (a b : string) :
  all_chars p (a ++ b) = all_chars p a && all_chars p b.
Proof.
  induction a as [|c a IH]; simpl; [reflexivity|]. now rewrite IH, andb_assoc.
Qed.

Lemma quote_plus_byte_link_safe (c : ascii) :
  all_chars link_safe (quote_plus_byte c) = true.
Proof.
  destruct c as [[] [] [] [] [] [] [] []]; reflexivity.
Qed.

Lemma quote_plus_link_safe (s : string) : all_chars link_safe (quote_plus s) = true.
Proof.
  induction s as [|c s IH]; simpl; [reflexivity|].
  now rewrite all_chars_app, quote_plus_byte_link_safe, IH.
Qed.

(** X13: whatever the names and values of the parameters, the query string
    [urlencode] makes of them consists of letters, digits, the marks
    _ . - ~, percent, plus, equals and ampersand only; in particular it holds
    no angle bracket, double quote, space, semicolon or comma, so no
    parameter can close or split the Link header value it is put into. *)
Theorem urlencode_is_link_safe :
  forall query : dict Scalar,
    all_chars link_safe (urlencode query) = true
    /\ forall c, In c (list_ascii_of_string (">< ;," ++ dquote)) ->
                 all_chars (fun x => negb (Ascii.eqb x c)) (urlencode query) = true.
Proof.
  intros query.
  assert (Hsafe : all_chars link_safe (urlencode query) = true).
  { unfold urlencode. induction query as [|[k v] rest IH]; [reflexivity|].
    destruct rest as [|kv rest'].
    - cbn [map join fst snd]. rewrite !all_chars_app, !quote_plus_link_safe. reflexivity.
    - change (all_chars link_safe
                ((quote_plus k ++ "=" ++ quote_plus (py_str v))
                   ++ "&"
                   ++ join "&"
                        (map (fun kv0 => quote_plus (fst kv0) ++ "="
                                           ++ quote_plus (py_str (snd kv0)))
                           (kv :: rest'))) = true).
      rewrite !all_chars_app, IH, !quote_plus_link_safe. reflexivity. }
  split; [exact Hsafe|].
  intros c Hc.
  assert (Hout : link_safe c = false).
  { simpl in Hc. repeat destruct Hc as [<-|Hc]; try reflexivity. contradiction. }
  revert Hsafe. generalize (urlencode query) as text.
  induction text as [|x text IH]; simpl; [reflexivity|].
  intros H. apply andb_true_iff in H. destruct H as [Hx Htext].
  rewrite (IH Htext), andb_true_r.
  destruct (Ascii.eqb_spec x c) as [->|]; [congruence|reflexivity].
Qed.

Lemma quote_plus_safe_text (s : string) :
  all_chars is_always_safe s = true -> quote_plus s = s.
Proof.
  induction s as [|c s IH]; simpl; [reflexivity|].
  intros H. apply andb_true_iff in H. destruct H as [Hc Hs].
  unfold quote_plus_byte. rewrite Hc, (IH Hs). reflexivity.
Qed.

(** X14: parameters whose names and values are written with letters, digits
    and the marks _ . - ~ alone (ISO dates and numbers among them) go into
    the query string exactly as they are: name, equals sign, value, joined by
    ampersands. *)
Theorem urlencode_leaves_safe_text_as_it_is :
  forall query : dict Scalar,
    Forall (fun kv => all_chars is_always_safe (fst kv) = true
                      /\ all_chars is_always_safe (py_str (snd kv)) = true) query ->
    urlencode query = join "&" (map (fun kv => fst kv ++ "=" ++ py_str (snd kv)) query).
Proof.
  intros query Hall. unfold urlencode. f_equal.
  induction Hall as [|[k v] rest [Hk Hv] _ IH]; [reflexivity|].
  simpl in *. now rewrite IH, (quote_plus_safe_text _ Hk), (quote_plus_safe_text _ Hv).
Qed.

(** ** Beyond the claims: what is sent and what is not checked *)

Lemma paged_response_sent (db : DB) (request : option Request) (table_name : string)
    (page : Z) (response : option Response) (where_clause sort_by : string)
    (page_size : Z) (log : list string) :
  exists sent,
    fst (_get_paged_response db request table_name page response where_clause sort_by
           page_size log) = (log ++ sent)%list
    /\ forallb starts_with_select sent = true.
Proof.
  unfold _get_paged_response, bind, sql, lift, ret.
  destruct (db (count_statement table_name where_clause)) as [ccur|e];
    [|exists [count_statement table_name where_clause]; now split].
  destruct (subscript0 (fetchone ccur)) as [count|e];
    [|exists [count_statement table_name where_clause]; now split].
  destruct (query_params_dict request) as [qp|e];
    [|exists [count_statement table_name where_clause]; now split].
  destruct (py_lt_int ((page - 1) * page_size + page_size) count) as [has_next|e];
    [|exists [count_statement table_name where_clause]; now split].
  rewrite list_response_run, <- app_assoc.
  exists [count_statement table_name where_clause;
          page_statement table_name where_clause sort_by page_size ((page - 1) * page_size)].
  split; [|reflexivity].
  destruct (db (page_statement table_name where_clause sort_by page_size
                  ((page - 1) * page_size))); reflexivity.
Qed.

Lemma enrich_orders_sent (db : DB) (orders : list Row) (log : list string) :
  exists sent,
    fst (_enrich_orders db orders log) = (log ++ sent)%list
    /\ forallb starts_with_select sent = true.
Proof.
  revert log. induction orders as [|order rest IH]; intros log.
  - exists []. simpl. now rewrite app_nil_r.
  - rewrite enrich_orders_cons.
    destruct (dict_get "id" order) as [id|];
      [|exists []; simpl; now rewrite app_nil_r].
    destruct (db (items_statement id)) as [cursor|e];
      [|exists [items_statement id]; now split].
    destruct (IH (log ++ [items_statement id])%list) as (sent & Hsent & Hall).
    exists (items_statement id :: sent).
    destruct (_enrich_orders db rest (log ++ [items_statement id])%list) as [log' [l|e]];
      simpl in *; rewrite Hsent, <- app_assoc; now split.
Qed.

(** X15: whatever the engine answers and whether they return or raise, the
    six list handlers, the six single-record handlers and the row-count
    summary only add to the statements sent so far, and every statement they
    add begins with SELECT. *)
Theorem handlers_send_only_select_statements :
  forall (r : Resource) (page page_size : option Z) (start_date end_date : option string)
         (response : option Response) (request : option Request) (identifier : string)
         (db : DB) (log : list string),
    (exists sent,
        fst (list_handler r page page_size start_date end_date response request db log)
          = (log ++ sent)%list
        /\ forallb starts_with_select sent = true)
    /\ (exists sent,
          fst (single_handler r identifier db log) = (log ++ sent)%list
          /\ forallb starts_with_select sent = true)
    /\ (exists sent,
          fst (row_counts db log) = (log ++ sent)%list
          /\ forallb starts_with_select sent = true).
Proof.
  intros r page page_size start_date end_date response request identifier db log.
  split; [|split].
  - destruct r; simpl list_handler;
      unfold get_customers, get_orders, get_items, get_products, get_stores, get_supplies;
      try apply paged_response_sent.
    unfold bind.
    destruct (paged_response_sent db request "orders" (arg page 1) response
                (orders_where_clause start_date end_date) ""
                (arg page_size DEFAULT_PAGE_SIZE) log) as (sent & Hsent & Hall).
    destruct (_get_paged_response db request "orders" (arg page 1) response
                (orders_where_clause start_date end_date) ""
                (arg page_size DEFAULT_PAGE_SIZE) log) as [log1 [[resp0 orders0]|e]];
      simpl in Hsent; subst log1; [|exists sent; now split].
    destruct (enrich_orders_sent db orders0 (log ++ sent)%list) as (more & Hmore & Hall2).
    exists (sent ++ more)%list.
    destruct (_enrich_orders db orders0 (log ++ sent)%list) as [log2 [l|e]];
      simpl in *; subst log2; rewrite app_assoc, forallb_app, Hall, Hall2; now split.
  - rewrite single_handler_unfold.
    destruct r; try (rewrite single_response_run; eexists; split; [reflexivity|reflexivity]).
    unfold bind. rewrite single_response_run.
    destruct (db (lookup_statement Orders identifier)) as [cursor|e];
      [|eexists; split; reflexivity].
    destruct (rows cursor) as [|first others]; [eexists; split; reflexivity|].
    unfold bind. cbv beta iota.
    match goal with
    | |- context [_enrich_orders db ?l ?lg] =>
        destruct (enrich_orders_sent db l lg) as (more & Hmore & Hall2);
        exists (lookup_statement Orders identifier :: more);
        assert (Hall3 : forallb starts_with_select
                          (lookup_statement Orders identifier :: more) = true)
          by (cbn [forallb]; rewrite Hall2; reflexivity);
        destruct (_enrich_orders db l lg) as [log2 [enriched|e]]
    end;
      cbn [fst] in Hmore; subst log2; (split; [|exact Hall3]);
      [destruct enriched|]; unfold ret, lift; cbn [fst]; now rewrite <- app_assoc.
  - unfold row_counts. rewrite list_response_run. eexists. split; reflexivity.
Qed.



(** X17: a page size of 0 is not rejected: the data statement then asks for
    LIMIT 0 OFFSET 0 on every page, and as soon as the count is positive the
    response carries a Link to the next page, whatever the page number, so
    the chain of next links never ends. *)
Theorem zero_page_size_links_on_forever :
  forall (r : Resource) (page : option Z) (start_date end_date : option string)
         (response0 : Response) (request : Request) (db : DB) (total : Z)
         (log log' : list string) (response' : option Response)
         (page_rows : list (record_of r)),
    let where_clause := where_clause_of r start_date end_date in
    0 < total ->
    total_count db (table_of r) where_clause = Ok (SInt total) ->
    list_handler r page (Some 0) start_date end_date (Some response0) (Some request) db log
      = (log', Ok (response', page_rows)) ->
    exists response1 extra,
      response' = Some response1
      /\ get_header "Link" response1
           = Some (next_link (API_V1_PREFIX ++ route_of r)
                     (next_params request (arg page 1)))
      /\ log' = (log ++ [count_statement (table_of r) where_clause;
                         page_statement (table_of r) where_clause "" 0 0] ++ extra)%list.
Proof.
  intros r page start_date end_date response0 request db total log log' response'
    page_rows where_clause Htotal Hcount Hrun.
  assert (Hnext : (arg page 1 - 1) * arg (Some 0) DEFAULT_PAGE_SIZE
                  + arg (Some 0) DEFAULT_PAGE_SIZE < total) by (simpl; lia).
  destruct (next_link_is_set _ _ _ _ _ _ _ _ _ _ _ _ _ Hcount Hnext Hrun)
    as (response1 & -> & Hlink).
  apply list_handler_inv in Hrun. destruct Hrun as (log1 & rows0 & extra & Hrun & _ & ->).
  apply paged_response_inv in Hrun.
  destruct Hrun as (_ & _ & _ & _ & _ & _ & _ & _ & _ & _ & ->).
  exists response1, extra. split; [reflexivity|]. split; [exact Hlink|].
  rewrite <- app_assoc. fold where_clause. simpl arg. now rewrite Z.mul_0_r.
Qed.

(** ** Beyond the claims: list mode on a well-formed answer *)

Lemma map_fst_combine {A B : Type} (l : list A) (l' : list B) :
  List.length l' = List.length l -> map fst (combine l l') = l.
Proof.
  revert l'. induction l as [|a l IH]; intros [|b l'] H; simpl in *;
    try reflexivity; try discriminate.
  f_equal. apply IH. now injection H.
Qed.

(** X18: when the engine answers with pairwise distinct column names and
    rows as wide as the column list, list mode returns one mapping per row,
    in row order, and each mapping is the row's values paired with the
    column names in column order: no row is dropped, merged or reordered and
    every mapping has exactly the columns as its field names. *)
Theorem list_response_pairs_columns_with_values :
  forall (db : DB) (query : string) (cursor : Cursor) (log : list string),
    db query = Ok cursor ->
    NoDup (description cursor) ->
    Forall (fun row => List.length row = List.length (description cursor)) (rows cursor) ->
    _get_list_response db query log
      = ((log ++ [query])%list, Ok (map (combine (description cursor)) (rows cursor)))
    /\ Forall (fun record => keys record = description cursor)
         (map (combine (description cursor)) (rows cursor)).
Proof.
  intros db query cursor log Hdb Hnd Hwide.
  rewrite list_response_run, Hdb. split.
  - f_equal. f_equal. apply map_ext_in. intros row Hin.
    apply dict_of_items_nodup. rewrite Forall_forall in Hwide.
    now rewrite map_fst_combine by (apply Hwide; exact Hin).
  - apply Forall_map. rewrite Forall_forall in *. intros row Hin.
    unfold keys. now apply map_fst_combine, Hwide.
Qed.

End Routers.

(** ** The theorems at work on the small shop *)

Example urlencode_escapes :
  urlencode [("a b", SStr "x/y&z=1"); ("d", SStr "2023-01-01~_."); ("page", SInt 12)]
    = "a+b=x%2Fy%26z%3D1&d=2023-01-01~_.&page=12".
Proof. reflexivity. Qed.

Example january_filter :
  orders_where_clause (Some "2023-01-01") (Some "2023-01-31") = january.
Proof. reflexivity. Qed.

(** A page of orders: the count, the page, then one items statement per
    order; the second order has no items and gets the empty list. *)
Example orders_in_january :
  get_orders "/api/v1" 100 None None (Some "2023-01-01") (Some "2023-01-31")
    (Some fresh_response) (Some {| query_params := [] |}) shop []
    = ([count_statement "orders" january;
        page_statement "orders" january "" 100 0;
        items_statement (SStr "o1");
        items_statement (SStr "o2")],
       Ok (Some fresh_response,
           [(as_order (to_dict order_columns [SStr "o1"; SStr "c1"; SInt 1200])
               ++ [("items",
                    ItemList [to_dict item_columns [SStr "i1"; SStr "o1"; SStr "JAF-001"];
                              to_dict item_columns [SStr "i3"; SStr "o1"; SStr "BEV-001"]])])%list;
            (as_order (to_dict order_columns [SStr "o2"; SStr "c3"; SInt 700])
               ++ [("items", ItemList [])])%list])).
Proof. reflexivity. Qed.

Lemma lookup_of_absent_record_witness :
  shop (lookup_statement Customers "c9") = Ok {| description := customer_columns; rows := [] |}
  /\ single_handler Customers "c9" shop []
       = (([] ++ [lookup_statement Customers "c9"])%list, Err TypeError)
  /\ snd (single_handler Customers "c9" shop []) <> Err NotFound.
Proof.
  split; [reflexivity|].
  apply (lookup_of_absent_record_raises_TypeError Customers "c9" shop customer_columns []).
  reflexivity.
Defined.

(** C1 as stated fails: the lookup of a customer that is not there raises
    TypeError, which is not NotFound. *)
Lemma lookup_of_absent_record_is_not_NotFound :
  shop (lookup_statement Customers "c9") = Ok {| description := customer_columns; rows := [] |}
  /\ single_handler Customers "c9" shop [] = ([lookup_statement Customers "c9"], Err TypeError)
  /\ snd (single_handler Customers "c9" shop []) <> Err NotFound.
Proof.
  split; [reflexivity|]. split; [reflexivity|].
  simpl. discriminate.
Qed.

Lemma single_response_is_first_row_witness :
  shop (page_statement "customers" "" "" 2 0)
    = Ok {| description := customer_columns;
            rows := [SStr "c1"; SStr "Ann"] :: [[SStr "c2"; SStr "Bob"]] |}
  /\ (_get_single_response shop (page_statement "customers" "" "" 2 0) []
        = (([] ++ [page_statement "customers" "" "" 2 0])%list,
           Ok (dict_of_items (combine customer_columns [SStr "c1"; SStr "Ann"])))
      /\ (NoDup customer_columns ->
          dict_of_items (combine customer_columns [SStr "c1"; SStr "Ann"])
            = combine customer_columns [SStr "c1"; SStr "Ann"])).
Proof.
  split; [reflexivity|].
  apply (single_response_is_first_row shop (page_statement "customers" "" "" 2 0)
           customer_columns [SStr "c1"; SStr "Ann"] [[SStr "c2"; SStr "Bob"]] []).
  reflexivity.
Defined.






(** The comment of a leaking start date hides the OFFSET as well: a page
    beyond the last one comes back with every order from that date on. *)
Example leaking_start_date_lifts_the_offset :
  list_handler "/api/v1" 100 Orders (Some 6) (Some 1) (Some leaking_date) None
    (Some fresh_response) (Some leaking_request) market []
  = ([leaked_count;
      "SELECT * FROM orders WHERE ordered_at::DATE >= '2023-01-01' --'  LIMIT 1 OFFSET 5";
      "SELECT * FROM items WHERE order_id = 'o1'";
      "SELECT * FROM items WHERE order_id = 'o2'"],
     Ok (Some fresh_response, january_orders)).
Proof. reflexivity. Qed.

(** C4 as stated fails: a start date given as the empty string is supplied,
    yet the clause holds no condition for it. *)
Lemma empty_bound_counts_as_absent :
  orders_where_clause (Some "") None = ""
  /\ date_filter (Some "") None = "WHERE ordered_at::DATE >= ''"
  /\ orders_where_clause (Some "") None <> date_filter (Some "") None
  /\ orders_where_clause (Some "") (Some "2023-01-31") = "WHERE ordered_at::DATE <= '2023-01-31'"
  /\ orders_where_clause (Some "") (Some "2023-01-31")
       <> date_filter (Some "") (Some "2023-01-31").
Proof.
  repeat split; try reflexivity; vm_compute; discriminate.
Qed.

Lemma enrich_orders_attaches_items_witness :
  Forall (enrichable market item_columns item_table) order_rows
  /\ exists (enriched : list Order) (statements : list string),
       _enrich_orders market order_rows [] = (([] ++ statements)%list, Ok enriched)
       /\ Forall2 asks_for_items_of order_rows statements
       /\ List.length statements = List.length order_rows
       /\ List.length enriched = List.length order_rows
       /\ Forall2 (enriched_from item_columns item_table) order_rows enriched.
Proof.
  assert (H : Forall (enrichable market item_columns item_table) order_rows).
  { repeat (constructor; [repeat split; reflexivity|]). constructor. }
  split; [exact H|].
  exact (enrich_orders_attaches_items market item_columns item_table order_rows [] H).
Defined.

(** C3 as stated fails: an order whose id holds a single quote has an id
    field, yet the statement enrichment sends for it ends inside a literal;
    the engine raises on it and enrichment returns no list. *)
Lemma quoted_id_breaks_enrichment :
  dict_get "id" quoted_order = Some (SStr "o'7")
  /\ dict_get "items" quoted_order = None
  /\ items_statement (SStr "o'7") = "SELECT * FROM items WHERE order_id = 'o'7'"
  /\ literals (items_statement (SStr "o'7")) = None
  /\ _enrich_orders market [quoted_order] []
       = (["SELECT * FROM items WHERE order_id = 'o'7'"], Err (QueryError "unknown statement"))
  /\ forall enriched : list Order,
       snd (_enrich_orders market [quoted_order] []) <> Ok enriched.
Proof.
  repeat split; try reflexivity.
  intros enriched. vm_compute. discriminate.
Qed.

Lemma row_counts_one_row_per_table_witness :
  Forall (counts_table market market_sizes) monitored
  /\ unions_all market (map Sql.named_count (map table_of monitored))
  /\ row_counts market []
       = (([] ++ [Sql.union_all
                    (map Sql.named_count
                       ["customers"; "orders"; "items"; "products"; "stores"; "supplies"])])%list,
          Ok [[("table_name", SStr "customers"); ("row_count", SInt 3)];
              [("table_name", SStr "orders"); ("row_count", SInt 2)];
              [("table_name", SStr "items"); ("row_count", SInt 3)];
              [("table_name", SStr "products"); ("row_count", SInt 10)];
              [("table_name", SStr "stores"); ("row_count", SInt 6)];
              [("table_name", SStr "supplies"); ("row_count", SInt 65)]]).
Proof.
  assert (H1 : Forall (counts_table market market_sizes) monitored).
  { repeat (constructor; [split; [reflexivity|exists ["count_star()"]; reflexivity]|]).
    constructor. }
  assert (H2 : unions_all market (map Sql.named_count (map table_of monitored))).
  { exists (map (fun r => named_count_cursor (table_of r) (market_sizes r)) monitored).
    split; [|reflexivity].
    repeat (constructor; [reflexivity|]). constructor. }
  split; [exact H1|]. split; [exact H2|].
  exact (row_counts_one_row_per_table market market_sizes [] H1 H2).
Defined.

Lemma next_link_keeps_request_params_witness :
  total_count shop "customers" "" = Ok (SInt 3)
  /\ (1 - 1) * 2 + 2 < 3
  /\ list_handler "/api/v1" 100 Customers None (Some 2) None None (Some fresh_response)
       (Some plain_request) shop []
       = (first_page_log, Ok (Some linked_response, first_page))
  /\ let sent := next_params plain_request 1 in
     exists response1,
       Some linked_response = Some response1
       /\ get_header "Link" response1
            = Some ("<" ++ "/api/v1" ++ route_of Customers ++ "?" ++ urlencode sent
                      ++ ">; rel=" ++ dquote ++ "next" ++ dquote)
       /\ dict_get "page" sent = Some (SInt (1 + 1))
       /\ (forall name, name <> "page" ->
             dict_get name sent
               = option_map SStr (last_value name (query_params plain_request)))
       /\ (NoDup (map fst (query_params plain_request)) ->
           other_than_page sent = map as_text (other_than_page (query_params plain_request))).
Proof.
  split; [reflexivity|]. split; [reflexivity|]. split; [reflexivity|].
  apply (next_link_keeps_request_params "/api/v1" 100 Customers None (Some 2) None None
           fresh_response plain_request shop 3 [] first_page_log (Some linked_response)
           first_page);
    reflexivity.
Defined.

(** C6 as stated fails: of a parameter the request repeats, the next link
    carries one occurrence only. *)
Lemma repeated_param_is_carried_once :
  list_handler "/api/v1" 100 Customers None (Some 2) None None (Some fresh_response)
    (Some repeating_request) shop []
    = (first_page_log,
       Ok (Some {| headers :=
                     [("link",
                       "</api/v1/customers?tag=b&page_size=2&page=2>; rel="
                         ++ dquote ++ "next" ++ dquote)] |},
           first_page))
  /\ other_than_page (next_params repeating_request 1)
       = [("tag", SStr "b"); ("page_size", SStr "2")]
  /\ other_than_page (next_params repeating_request 1)
       <> map as_text (other_than_page (query_params repeating_request)).
Proof.
  split; [reflexivity|]. split; [reflexivity|].
  vm_compute. discriminate.
Qed.

Lemma next_link_adds_page_param_witness :
  ~ In "page" (map fst (query_params plain_request))
  /\ total_count shop "customers" "" = Ok (SInt 3)
  /\ (1 - 1) * 2 + 2 < 3
  /\ list_handler "/api/v1" 100 Customers None (Some 2) None None (Some fresh_response)
       (Some plain_request) shop []
       = (first_page_log, Ok (Some linked_response, first_page))
  /\ let original := original_params plain_request in
     let query_string :=
       match original with
       | [] => ""
       | _ :: _ => urlencode original ++ "&"
       end ++ "page=" ++ str_int (1 + 1) in
     exists response1,
       Some linked_response = Some response1
       /\ next_params plain_request 1 = (original ++ [("page", SInt (1 + 1))])%list
       /\ get_header "Link" response1
            = Some ("<" ++ "/api/v1" ++ route_of Customers ++ "?" ++ query_string
                      ++ ">; rel=" ++ dquote ++ "next" ++ dquote)
       /\ (@None Z = None -> str_int (1 + 1) = "2").
Proof.
  assert (H : ~ In "page" (map fst (query_params plain_request))).
  { simpl. intros [E|[]]. discriminate E. }
  split; [exact H|]. split; [reflexivity|]. split; [reflexivity|]. split; [reflexivity|].
  apply (next_link_adds_page_param "/api/v1" 100 Customers None (Some 2) None None
           fresh_response plain_request shop 3 [] first_page_log (Some linked_response)
           first_page);
    [exact H|reflexivity|reflexivity|reflexivity].
Defined.

(** ** The properties beyond the claims at work *)

Lemma list_handler_stops_at_failed_count_witness :
  engine_of [] (count_statement (table_of Stores) (where_clause_of Stores None None))
    = Err (QueryError "unknown statement")
  /\ list_handler "/api/v1" 100 Stores None None None None (Some fresh_response)
       (Some plain_request) (engine_of []) []
     = (([] ++ [count_statement (table_of Stores) (where_clause_of Stores None None)])%list,
        Err (QueryError "unknown statement")).
Proof.
  split; [reflexivity|].
  apply (list_handler_stops_at_failed_count "/api/v1" 100 Stores None None None None
           (Some fresh_response) (Some plain_request) (engine_of [])
           (QueryError "unknown statement") []).
  reflexivity.
Defined.


Lemma list_handler_touches_only_the_link_header_witness :
  list_handler "/api/v1" 100 Customers None (Some 2) None None (Some stale_response)
    (Some plain_request) shop []
    = (first_page_log, Ok (Some relinked_response, first_page))
  /\ exists response1,
       Some relinked_response = Some response1
       /\ remove_header "link" (headers response1)
            = remove_header "link" (headers stale_response)
       /\ (response1 = stale_response \/ count_header "link" (headers response1) = 1%nat).
Proof.
  split; [reflexivity|].
  apply (list_handler_touches_only_the_link_header "/api/v1" 100 Customers None (Some 2)
           None None stale_response (Some plain_request) shop [] first_page_log
           (Some relinked_response) first_page).
  reflexivity.
Defined.

Lemma link_iff_next_page_has_rows_witness :
  1 <= 1
  /\ 0 < 2
  /\ get_header "Link" fresh_response = None
  /\ total_count bazaar "customers" "" = Ok (SInt (Z.of_nat (List.length customer_table)))
  /\ serves_slice bazaar (page_statement "customers" "" "" 2 ((1 - 1) * 2)) customer_columns
       customer_table 2 ((1 - 1) * 2)
  /\ serves_slice bazaar (page_statement "customers" "" "" 2 ((1 + 1 - 1) * 2))
       customer_columns customer_table 2 ((1 + 1 - 1) * 2)
  /\ exists (response1 : Response) (next_rows : list Row),
       returned_rows
         (_get_paged_response "/api/v1" bazaar (Some plain_request) "customers" (1 + 1)
            (Some fresh_response) "" "" 2 []) = Ok next_rows
       /\ snd (_get_paged_response "/api/v1" bazaar (Some plain_request) "customers" 1
                (Some fresh_response) "" "" 2 [])
          = Ok (Some response1, slice customer_columns customer_table 2 ((1 - 1) * 2))
       /\ (get_header "Link" response1 <> None <-> next_rows <> []).
Proof.
  split; [lia|]. split; [lia|]. split; [reflexivity|]. split; [reflexivity|].
  split; [reflexivity|]. split; [reflexivity|].
  apply (link_iff_next_page_has_rows "/api/v1" bazaar plain_request "customers" "" "" 1 2
           fresh_response customer_columns customer_table []);
    solve [lia | reflexivity].
Defined.

Lemma first_pages_are_the_first_rows_witness :
  0 < 2
  /\ total_count bazaar "customers" "" = Ok (SInt (Z.of_nat (List.length customer_table)))
  /\ (forall p, (1 <= p <= 2)%nat ->
        serves_slice bazaar
          (page_statement "customers" "" "" 2 ((Z.of_nat p - 1) * 2))
          customer_columns customer_table 2 ((Z.of_nat p - 1) * 2))
  /\ exists pages : list (list Row),
       Forall2 (fun p page_rows =>
                  returned_rows
                    (_get_paged_response "/api/v1" bazaar (Some plain_request) "customers"
                       (Z.of_nat p) None "" "" 2 []) = Ok page_rows)
         (seq 1 2) pages
       /\ List.concat pages
            = map (to_dict customer_columns) (firstn (2 * Z.to_nat 2) customer_table)
       /\ ((List.length customer_table <= 2 * Z.to_nat 2)%nat ->
           List.concat pages = map (to_dict customer_columns) customer_table).
Proof.
  assert (H : forall p, (1 <= p <= 2)%nat ->
                serves_slice bazaar
                  (page_statement "customers" "" "" 2 ((Z.of_nat p - 1) * 2))
                  customer_columns customer_table 2 ((Z.of_nat p - 1) * 2)).
  { intros p Hp. assert (Hcases : p = 1%nat \/ p = 2%nat) by lia.
    destruct Hcases as [-> | ->]; reflexivity. }
  split; [lia|]. split; [reflexivity|]. split; [exact H|].
  apply (first_pages_are_the_first_rows "/api/v1" bazaar plain_request None "customers" ""
           "" 2 customer_columns customer_table 2 []);
    [lia|reflexivity|exact H].
Defined.

Lemma get_orders_sends_one_items_statement_per_order_witness :
  get_orders "/api/v1" 100 None None (Some "2023-01-01") (Some "2023-01-31")
    (Some fresh_response) (Some plain_request) shop []
    = (january_log, Ok (Some fresh_response, january_orders))
  /\ exists statements,
       january_log
         = ([] ++ [count_statement "orders" january;
                   page_statement "orders" january "" 100 ((1 - 1) * 100)]
               ++ statements)%list
       /\ List.length statements = List.length january_orders
       /\ Forall2 (fun statement record =>
                     exists id, dict_get "id" record = Some (Scal id)
                                /\ statement = items_statement id)
            statements january_orders.
Proof.
  split; [reflexivity|].
  apply (get_orders_sends_one_items_statement_per_order "/api/v1" 100 None None
           (Some "2023-01-01") (Some "2023-01-31") (Some fresh_response)
           (Some plain_request) shop [] january_log (Some fresh_response) january_orders).
  reflexivity.
Defined.

Lemma enriched_order_keeps_the_other_fields_witness :
  _enrich_orders shop [order_with_items] []
    = ([items_statement (SStr "o1")],
       Ok [[("id", Scal (SStr "o1")); ("items", ItemList items_of_o1); ("note", Scal SNone)]])
  /\ Forall2 (fun order record =>
                (forall name, name <> "items" ->
                   dict_get name record = option_map Scal (dict_get name order))
                /\ (exists id, dict_get "id" order = Some id
                               /\ dict_get "items" record
                                    = Some (ItemList (items_found shop id)))
                /\ keys record = match dict_get "items" order with
                                 | Some _ => keys order
                                 | None => (keys order ++ ["items"])%list
                                 end)
       [order_with_items]
       [[("id", Scal (SStr "o1")); ("items", ItemList items_of_o1); ("note", Scal SNone)]].
Proof.
  split; [reflexivity|].
  apply (enriched_order_keeps_the_other_fields shop [order_with_items] []
           [items_statement (SStr "o1")]).
  reflexivity.
Defined.

Lemma enrich_orders_raises_on_missing_id_witness :
  Forall (items_answered shop) order_rows
  /\ dict_get "id" [("name", SStr "no id")] = None
  /\ exists statements,
       List.length statements = List.length order_rows
       /\ _enrich_orders shop (order_rows ++ [("name", SStr "no id")] :: order_rows)%list []
            = (([] ++ statements)%list, Err (KeyError "id")).
Proof.
  assert (H : Forall (items_answered shop) order_rows).
  { repeat (constructor; [exact I|]). constructor. }
  split; [exact H|]. split; [reflexivity|].
  exact (enrich_orders_raises_on_missing_id shop order_rows [("name", SStr "no id")]
           order_rows [] H eq_refl).
Defined.

Lemma enrich_orders_raises_what_the_engine_raises_witness :
  Forall (items_answered shop) order_rows
  /\ dict_get "id" [("id", SStr "o3")] = Some (SStr "o3")
  /\ shop (items_statement (SStr "o3")) = Err (QueryError "unknown statement")
  /\ exists statements,
       List.length statements = List.length order_rows
       /\ _enrich_orders shop (order_rows ++ [("id", SStr "o3")] :: order_rows)%list []
            = (([] ++ statements ++ [items_statement (SStr "o3")])%list,
               Err (QueryError "unknown statement")).
Proof.
  assert (H : Forall (items_answered shop) order_rows).
  { repeat (constructor; [exact I|]). constructor. }
  split; [exact H|]. split; [reflexivity|]. split; [reflexivity|].
  exact (enrich_orders_raises_what_the_engine_raises shop order_rows [("id", SStr "o3")]
           order_rows (SStr "o3") (QueryError "unknown statement") [] H eq_refl eq_refl).
Defined.

Lemma get_order_takes_items_of_the_row_id_witness :
  bazaar (lookup_statement Orders "2023-o1")
    = Ok {| description := order_columns; rows := [SStr "o1"; SStr "c1"; SInt 1200] :: [] |}
  /\ dict_get "id" (to_dict order_columns [SStr "o1"; SStr "c1"; SInt 1200])
       = Some (SStr "o1")
  /\ bazaar (items_statement (SStr "o1"))
       = Ok {| description := item_columns;
               rows := rows_where item_columns item_table "order_id" (SStr "o1") |}
  /\ get_order "2023-o1" bazaar []
       = (([] ++ [lookup_statement Orders "2023-o1"; items_statement (SStr "o1")])%list,
          Ok (dict_set "items"
                (ItemList (map (to_dict item_columns)
                             (rows_where item_columns item_table "order_id" (SStr "o1"))))
                (as_order (to_dict order_columns [SStr "o1"; SStr "c1"; SInt 1200])))).
Proof.
  split; [reflexivity|]. split; [reflexivity|]. split; [reflexivity|].
  apply (get_order_takes_items_of_the_row_id "2023-o1" bazaar order_columns
           [SStr "o1"; SStr "c1"; SInt 1200] [] (SStr "o1")
           {| description := item_columns;
              rows := rows_where item_columns item_table "order_id" (SStr "o1") |} []);
    reflexivity.
Defined.

Lemma urlencode_leaves_safe_text_as_it_is_witness :
  Forall (fun kv => all_chars is_always_safe (fst kv) = true
                    /\ all_chars is_always_safe (py_str (snd kv)) = true)
    [("start_date", SStr "2023-01-01"); ("page", SInt 2)]
  /\ urlencode [("start_date", SStr "2023-01-01"); ("page", SInt 2)]
       = join "&" (map (fun kv => fst kv ++ "=" ++ py_str (snd kv))
                     [("start_date", SStr "2023-01-01"); ("page", SInt 2)]).
Proof.
  assert (H : Forall (fun kv => all_chars is_always_safe (fst kv) = true
                                /\ all_chars is_always_safe (py_str (snd kv)) = true)
                [("start_date", SStr "2023-01-01"); ("page", SInt 2)]).
  { repeat (constructor; [split; reflexivity|]). constructor. }
  split; [exact H|].
  exact (urlencode_leaves_safe_text_as_it_is
           [("start_date", SStr "2023-01-01"); ("page", SInt 2)] H).
Defined.


Lemma zero_page_size_links_on_forever_witness :
  0 < 3
  /\ total_count bazaar "customers" "" = Ok (SInt 3)
  /\ list_handler "/api/v1" 100 Customers (Some 5) (Some 0) None None (Some fresh_response)
       (Some zero_size_request) bazaar []
     = ([count_statement "customers" ""; page_statement "customers" "" "" 0 0],
        Ok (Some {| headers :=
                      [("link",
                        "</api/v1/customers?page=6&page_size=0>; rel="
                          ++ dquote ++ "next" ++ dquote)] |},
            []))
  /\ exists response1 extra,
       Some {| headers :=
                 [("link",
                   "</api/v1/customers?page=6&page_size=0>; rel="
                     ++ dquote ++ "next" ++ dquote)] |}
         = Some response1
       /\ get_header "Link" response1
            = Some (next_link ("/api/v1" ++ route_of Customers)
                      (next_params zero_size_request 5))
       /\ [count_statement "customers" ""; page_statement "customers" "" "" 0 0]
            = ([] ++ [count_statement "customers" "";
                      page_statement "customers" "" "" 0 0] ++ extra)%list.
Proof.
  split; [reflexivity|]. split; [reflexivity|]. split; [reflexivity|].
  apply (zero_page_size_links_on_forever "/api/v1" 100 Customers (Some 5) None None
           fresh_response zero_size_request bazaar 3 []
           [count_statement "customers" ""; page_statement "customers" "" "" 0 0]
           (Some {| headers :=
                      [("link",
                        "</api/v1/customers?page=6&page_size=0>; rel="
                          ++ dquote ++ "next" ++ dquote)] |})
           []);
    reflexivity.
Defined.

Lemma list_response_pairs_columns_with_values_witness :
  shop (items_statement (SStr "o1"))
    = Ok {| description := item_columns;
            rows := rows_where item_columns item_table "order_id" (SStr "o1") |}
  /\ NoDup item_columns
  /\ Forall (fun row => List.length row = List.length item_columns)
       (rows_where item_columns item_table "order_id" (SStr "o1"))
  /\ _get_list_response shop (items_statement (SStr "o1")) []
       = (([] ++ [items_statement (SStr "o1")])%list,
          Ok (map (combine item_columns)
                (rows_where item_columns item_table "order_id" (SStr "o1"))))
  /\ Forall (fun record => keys record = item_columns)
       (map (combine item_columns)
          (rows_where item_columns item_table "order_id" (SStr "o1"))).
Proof.
  assert (Hnd : NoDup item_columns).
  { unfold item_columns. repeat constructor; simpl; intuition discriminate. }
  assert (Hwide : Forall (fun row => List.length row = List.length item_columns)
                    (rows_where item_columns item_table "order_id" (SStr "o1"))).
  { repeat constructor. }
  split; [reflexivity|]. split; [exact Hnd|]. split; [exact Hwide|].
  exact (list_response_pairs_columns_with_values shop (items_statement (SStr "o1"))
           {| description := item_columns;
              rows := rows_where item_columns item_table "order_id" (SStr "o1") |}
           [] eq_refl Hnd Hwide).
Defined.
